(** Shallow embedding of the core of Vaibhav's Speed Demon
    (src/src/core: optimizer.py, game_detector.py, monitor.py,
    scheduler.py) and the properties of its specification.

    Floats ([cpu_percent], [memory_percent]) are modelled as rationals
    [Q]; Python ints as [Z]; Python dicts whose iteration order matters
    as association lists with the dict's update-in-place semantics. The
    operating system (process table, privileges, external commands) is
    an explicit environment record passed to the operations. *)

From Stdlib Require Import ZArith QArith Qround List Bool String Ascii Lia.
From Stdlib Require Import Sorting.Permutation Sorting.Sorted Lqa.
Import ListNotations.
Open Scope Z_scope.

(* ------------------------------------------------------------------ *)
(** * Python dicts and helpers *)

Module PyDict.
Section Dict.
Context {K V : Type} (eqk : K -> K -> bool).

(** [d.get(k)] *)
Fixpoint get (k : K) (d : list (K * V)) : option V :=
  match d with
  | [] => None
  | (k', v) :: t => if eqk k k' then Some v else get k t
  end.

(** [d[k] = v]: an existing key keeps its position, a new key goes last. *)
Fixpoint set (k : K) (v : V) (d : list (K * V)) : list (K * V) :=
  match d with
  | [] => [(k, v)]
  | (k', v') :: t => if eqk k k' then (k', v) :: t else (k', v') :: set k v t
  end.

(** [del d[k]] (callers check [k in d] first). *)
Fixpoint del (k : K) (d : list (K * V)) : list (K * V) :=
  match d with
  | [] => []
  | (k', v') :: t => if eqk k k' then t else (k', v') :: del k t
  end.

Definition mem (k : K) (d : list (K * V)) : bool :=
  match get k d with Some _ => true | None => false end.

End Dict.
End PyDict.

(** [str.lower()] on ASCII *)
Definition lower_ascii (c : ascii) : ascii :=
  let n := nat_of_ascii c in
  if (Nat.leb 65 n && Nat.leb n 90)%bool then ascii_of_nat (n + 32) else c.

Fixpoint lower (s : string) : string :=
  match s with
  | EmptyString => EmptyString
  | String c t => String (lower_ascii c) (lower t)
  end.

(** Python's [a in b] for strings: substring test. *)
Fixpoint is_prefix (p s : string) : bool :=
  match p, s with
  | EmptyString, _ => true
  | String a p', String b s' => Ascii.eqb a b && is_prefix p' s'
  | String _ _, EmptyString => false
  end.

Fixpoint contains (s p : string) : bool :=
  is_prefix p s ||
  match s with
  | EmptyString => false
  | String _ t => contains t p
  end.

(** [int(x)]: truncation toward zero *)
Definition py_int (q : Q) : Z :=
  if Qle_bool 0 q then Qfloor q else - Qfloor (- q).

(** [range(n)] *)
Definition range (n : Z) : list Z :=
  map Z.of_nat (seq 0 (Z.to_nat n)).

(** [list.sort(key=key, reverse=True)]: a stable sort in descending
    key order (equal keys keep their original order). *)
Section SortDesc.
Context {A : Type} (key : A -> Q).

Fixpoint insert_desc (x : A) (l : list A) : list A :=
  match l with
  | [] => [x]
  | y :: t => if Qle_bool (key y) (key x) then x :: y :: t
              else y :: insert_desc x t
  end.

Fixpoint sort_desc (l : list A) : list A :=
  match l with
  | [] => []
  | x :: t => insert_desc x (sort_desc t)
  end.
End SortDesc.

(** [lst[:n]] *)
Definition take {A} (n : nat) (l : list A) : list A := firstn n l.

(** decimal rendering of a count, for the messages of [optimize_process] *)
Fixpoint digits_of (fuel n : nat) (acc : string) : string :=
  match fuel with
  | O => acc
  | S f =>
      let d := ascii_of_nat (48 + Nat.modulo n 10) in
      if Nat.ltb n 10 then String d acc
      else digits_of f (Nat.div n 10) (String d acc)
  end.

Definition string_of_nat (n : nat) : string := digits_of (S n) n EmptyString.

(* ------------------------------------------------------------------ *)
(** * The operating system seen by the core (psutil and friends) *)

(** [_get_process_metrics]: the dict, or [None] for the [{}] returned
    when reading the metrics raises. *)
Record Metrics := mkMetrics {
  m_cpu_percent : Q;
  m_memory_mb : Q;
  m_num_threads : Z
}.

Record Proc := mkProc {
  pr_name : string;
  pr_nice : Z;                  (* [process.nice()] *)
  pr_affinity : list Z;         (* [process.cpu_affinity()] *)
  pr_metrics : option Metrics;  (* what [_get_process_metrics] reads now *)
  pr_can_set : bool             (* false: [nice(v)] / [cpu_affinity(l)] raise AccessDenied *)
}.

Record OS := mkOS {
  os_procs : list (Z * Proc);   (* live processes by pid *)
  os_cpu_count : Z;             (* [psutil.cpu_count()] *)
  os_now : Z;                   (* [datetime.now()] *)
  os_gpu_ok : bool;             (* the powershell call of [_enable_gpu_acceleration] runs *)
  os_mem_ok : bool;             (* OpenProcess / /proc/<pid>/smaps_rollup succeed *)
  os_io_ok : bool               (* win32process / ionice calls run *)
}.

Definition proc_of (os : OS) (pid : Z) : option Proc := PyDict.get Z.eqb pid (os_procs os).

Definition put_proc (os : OS) (pid : Z) (p : Proc) : OS :=
  {| os_procs := PyDict.set Z.eqb pid p (os_procs os);
     os_cpu_count := os_cpu_count os; os_now := os_now os;
     os_gpu_ok := os_gpu_ok os; os_mem_ok := os_mem_ok os; os_io_ok := os_io_ok os |}.

Definition with_nice (p : Proc) (v : Z) : Proc :=
  {| pr_name := pr_name p; pr_nice := v; pr_affinity := pr_affinity p;
     pr_metrics := pr_metrics p; pr_can_set := pr_can_set p |}.

Definition with_affinity (p : Proc) (l : list Z) : Proc :=
  {| pr_name := pr_name p; pr_nice := pr_nice p; pr_affinity := l;
     pr_metrics := pr_metrics p; pr_can_set := pr_can_set p |}.

(** [process.nice(v)] and [process.cpu_affinity(l)]: [None] when they raise *)
Definition ps_set_nice (p : Proc) (v : Z) : option Proc :=
  if pr_can_set p then Some (with_nice p v) else None.

Definition ps_set_affinity (p : Proc) (l : list Z) : option Proc :=
  if pr_can_set p then Some (with_affinity p l) else None.

(** psutil's Windows priority classes *)
Definition IDLE_PRIORITY_CLASS := 64.
Definition BELOW_NORMAL_PRIORITY_CLASS := 16384.
Definition NORMAL_PRIORITY_CLASS := 32.
Definition ABOVE_NORMAL_PRIORITY_CLASS := 32768.
Definition HIGH_PRIORITY_CLASS := 128.
Definition REALTIME_PRIORITY_CLASS := 256.

(* ------------------------------------------------------------------ *)
(** * optimizer.py: [SystemOptimizer] *)

Module Optimizer.
Local Open Scope string_scope.

(** an optimization profile dict; [disk_priority] is falsy when [""] *)
Record Profile := mkProfile {
  pf_name : string;
  pf_priority : string;
  pf_cpu_affinity : string;
  pf_gpu_acceleration : bool;
  pf_memory_optimization : bool;
  pf_disk_priority : string
}.

(** the dict stored in [optimized_processes[pid]] *)
Record OptRecord := mkRecord {
  r_name : string;
  r_profile : Profile;
  r_timestamp : Z;
  r_optimizations : list string;
  r_metrics_before : option Metrics;
  r_boost_percentage : Z
}.

Record SystemOptimizer := mkOptimizer {
  platform : string;
  optimized_processes : list (Z * OptRecord);
  optimization_profiles : list (string * Profile)
}.

Definition with_records (st : SystemOptimizer) (r : list (Z * OptRecord)) :=
  {| platform := platform st; optimized_processes := r;
     optimization_profiles := optimization_profiles st |}.

(** [_load_profiles] without a custom profile file *)
Definition default_profiles : list (string * Profile) :=
  [("chrome", mkProfile "Google Chrome" "high" "all" true true "high");
   ("firefox", mkProfile "Mozilla Firefox" "high" "all" true true "high");
   ("photoshop", mkProfile "Adobe Photoshop" "realtime" "all" true false "high");
   ("game", mkProfile "Generic Game" "realtime" "performance_cores" true false "high")].

Definition _get_default_profile : Profile :=
  mkProfile "Default" "high" "all" true true "normal".

Definition priority_map (plat prio : string) : option Z :=
  if String.eqb plat "Windows" then
    if String.eqb prio "idle" then Some IDLE_PRIORITY_CLASS
    else if String.eqb prio "below_normal" then Some BELOW_NORMAL_PRIORITY_CLASS
    else if String.eqb prio "normal" then Some NORMAL_PRIORITY_CLASS
    else if String.eqb prio "above_normal" then Some ABOVE_NORMAL_PRIORITY_CLASS
    else if String.eqb prio "high" then Some HIGH_PRIORITY_CLASS
    else if String.eqb prio "realtime" then Some REALTIME_PRIORITY_CLASS
    else None
  else
    if String.eqb prio "idle" then Some 19
    else if String.eqb prio "below_normal" then Some 10
    else if String.eqb prio "normal" then Some 0
    else if String.eqb prio "above_normal" then Some (-5)
    else if String.eqb prio "high" then Some (-10)
    else if String.eqb prio "realtime" then Some (-20)
    else None.

Definition _set_process_priority (st : SystemOptimizer) (p : Proc) (prio : string)
  : bool * Proc :=
  match priority_map (platform st) prio with
  | Some v => match ps_set_nice p v with
              | Some p' => (true, p')
              | None => (false, p)   (* logged, [return False] *)
              end
  | None => (false, p)
  end.

Definition _set_cpu_affinity (os : OS) (p : Proc) (affinity_type : string) : bool * Proc :=
  let cpu_count := os_cpu_count os in
  let apply l := match ps_set_affinity p l with
                 | Some p' => (true, p')
                 | None => (false, p)
                 end in
  if String.eqb affinity_type "all" then apply (range cpu_count)
  else if String.eqb affinity_type "performance_cores" then
    if (4 <? cpu_count)%Z then apply (range (cpu_count / 2)) else apply (range cpu_count)
  else if String.eqb affinity_type "efficiency_cores" then
    if (4 <? cpu_count)%Z
    then apply (map (fun i => i + cpu_count / 2) (range (cpu_count - cpu_count / 2)))
    else apply [0]
  else (false, p).

Definition _enable_gpu_acceleration (st : SystemOptimizer) (os : OS) : bool :=
  String.eqb (platform st) "Windows" && os_gpu_ok os.

Definition _optimize_memory (st : SystemOptimizer) (os : OS) : bool :=
  (String.eqb (platform st) "Windows" || String.eqb (platform st) "Linux") && os_mem_ok os.

Definition io_map_has (plat prio : string) : bool :=
  if String.eqb plat "Windows" then
    existsb (String.eqb prio) ["low"; "normal"; "high"; "critical"]
  else if String.eqb plat "Linux" then
    existsb (String.eqb prio) ["idle"; "normal"; "high"]
  else false.

Definition _set_io_priority (st : SystemOptimizer) (os : OS) (prio : string) : bool :=
  io_map_has (platform st) prio && os_io_ok os.

(** profile selection: exact name, else the first key contained in the
    lower-cased process name, else the default profile *)
Fixpoint find_by_substring (pname : string) (ps : list (string * Profile)) : option Profile :=
  match ps with
  | [] => None
  | (key, prof) :: t => if contains pname key then Some prof else find_by_substring pname t
  end.

Definition select_profile (st : SystemOptimizer) (pname : string)
  (profile_name : option string) : Profile :=
  let found :=
    match profile_name with
    | Some n =>
        if negb (String.eqb n "") && PyDict.mem String.eqb n (optimization_profiles st)
        then PyDict.get String.eqb n (optimization_profiles st)
        else find_by_substring pname (optimization_profiles st)
    | None => find_by_substring pname (optimization_profiles st)
    end in
  match found with Some p => p | None => _get_default_profile end.

Definition optimize_process (st : SystemOptimizer) (os : OS) (pid : Z)
  (profile_name : option string) : (bool * string) * SystemOptimizer * OS :=
  match proc_of os pid with
  | None => ((false, "Process no longer exists"%string), st, os)
  | Some p0 =>
      let process_name := lower (pr_name p0) in
      let profile := select_profile st process_name profile_name in
      let '(ok1, p1) := _set_process_priority st p0 (pf_priority profile) in
      let '(ok2, p2) := _set_cpu_affinity os p1 (pf_cpu_affinity profile) in
      let ok3 := pf_gpu_acceleration profile && String.eqb (platform st) "Windows"
                 && _enable_gpu_acceleration st os in
      let ok4 := pf_memory_optimization profile && _optimize_memory st os in
      let ok5 := negb (String.eqb (pf_disk_priority profile) "")
                 && _set_io_priority st os (pf_disk_priority profile) in
      let applied :=
        List.concat [if ok1 then ["priority"] else [];
                if ok2 then ["cpu_affinity"] else [];
                if ok3 then ["gpu_acceleration"] else [];
                if ok4 then ["memory_optimization"] else [];
                if ok5 then ["io_priority"] else []] in
      let record := {| r_name := pr_name p2; r_profile := profile;
                       r_timestamp := os_now os; r_optimizations := applied;
                       r_metrics_before := pr_metrics p2;
                       r_boost_percentage := 0 |} in
      let st' := with_records st (PyDict.set Z.eqb pid record (optimized_processes st)) in
      ((true, ("Applied " ++ string_of_nat (List.length applied) ++ " optimizations")%string),
       st', put_proc os pid p2)
  end.

Definition with_boost (r : OptRecord) (b : Z) : OptRecord :=
  {| r_name := r_name r; r_profile := r_profile r; r_timestamp := r_timestamp r;
     r_optimizations := r_optimizations r; r_metrics_before := r_metrics_before r;
     r_boost_percentage := b |}.

Definition cpu_of (m : option Metrics) : Q :=
  match m with Some m => m_cpu_percent m | None => 0%Q end.

(** [max(0, x)] *)
Definition py_max0 (x : Q) : Q := if Qle_bool x 0 then 0%Q else x.

(** [calculate_boost]: [psutil.Process(pid)] raising (process gone) is the
    bare [except] returning the stored value. *)
Definition calculate_boost (st : SystemOptimizer) (os : OS) (pid : Z)
  : Z * SystemOptimizer :=
  match PyDict.get Z.eqb pid (optimized_processes st) with
  | None => (0%Z, st)
  | Some rec =>
      match proc_of os pid with
      | None => (r_boost_percentage rec, st)
      | Some p =>
          let current := cpu_of (pr_metrics p) in
          let before := cpu_of (r_metrics_before rec) in
          let cpu_factor :=
            if negb (Qle_bool before 0)
            then [py_max0 (((before - current) / before) * 100)]
            else [] in
          let base_boost := inject_Z (Z.of_nat (List.length (r_optimizations rec)) * 25) in
          let prio_factor := if (pr_nice p <? 32)%Z then [inject_Z 30] else [] in
          let boost_factors := List.app cpu_factor (base_boost :: prio_factor) in
          let total_boost := Z.min (py_int (fold_left Qplus boost_factors 0%Q)) 999 in
          (total_boost,
           with_records st (PyDict.set Z.eqb pid (with_boost rec total_boost)
                                       (optimized_processes st)))
      end
  end.

(** [remove_optimization]: any exception is the bare [except: return False];
    a [nice] reset that succeeded before [cpu_affinity] raised stays done. *)
Definition remove_optimization (st : SystemOptimizer) (os : OS) (pid : Z)
  : bool * SystemOptimizer * OS :=
  match proc_of os pid with
  | None => (false, st, os)
  | Some p =>
      let normal := if String.eqb (platform st) "Windows" then NORMAL_PRIORITY_CLASS else 0%Z in
      match ps_set_nice p normal with
      | None => (false, st, os)
      | Some p1 =>
          match ps_set_affinity p1 (range (os_cpu_count os)) with
          | None => (false, st, put_proc os pid p1)
          | Some p2 =>
              let recs := if PyDict.mem Z.eqb pid (optimized_processes st)
                          then PyDict.del Z.eqb pid (optimized_processes st)
                          else optimized_processes st in
              (true, with_records st recs, put_proc os pid p2)
          end
      end
  end.

Record Stats := mkStats {
  total_optimized : Z;
  average_boost : Q;
  total_boost : Z;
  top_processes : list (Z * string * Z)
}.

Definition get_optimization_stats (st : SystemOptimizer) : Stats :=
  let recs := optimized_processes st in
  let total_processes := Z.of_nat (List.length recs) in
  let total := fold_left Z.add (map (fun pr => r_boost_percentage (snd pr)) recs) 0%Z in
  {| total_optimized := total_processes;
     average_boost := if (0 <? total_processes)%Z
                      then (inject_Z total / inject_Z total_processes)%Q else 0%Q;
     total_boost := total;
     top_processes :=
       take 5 (sort_desc (fun x : Z * string * Z => inject_Z (snd x))
                 (map (fun pr => (fst pr, r_name (snd pr), r_boost_percentage (snd pr))) recs)) |}.

End Optimizer.

(* ------------------------------------------------------------------ *)
(** * monitor.py's process snapshot (the dicts of [get_processes]) *)

Record Snapshot := mkSnapshot {
  s_pid : Z;
  s_name : string;
  s_cpu_percent : Q;
  s_memory_percent : Q
}.

(* ------------------------------------------------------------------ *)
(** * game_detector.py: [GameDetector] *)

Module GameDetector.
Local Open Scope string_scope.

(** [original_settings]: [None] is the empty dict [{}]; the GPU and
    network parts are the placeholder [{}] of [_get_gpu_settings] and
    [_get_network_settings]. *)
Record Settings := mkSettings { saved_power_plan : string }.

(** a detected-game dict; [d_detected_by = None] when it has no
    ['detected_by'] key *)
Record Detected := mkDetected {
  d_name : string;
  d_type : string;
  d_pid : Z;
  d_process_name : string;
  d_detected_by : option string
}.

(** [gaming_processes] is a Python [set]: a duplicate-free list. *)
Record GameDetector := mkGD {
  known_games : list (string * (string * string));  (* exe -> (name, type) *)
  gaming_processes : list Z;
  game_mode_active : bool;
  original_settings : option Settings
}.

(** the machine the detector acts on *)
Record Machine := mkMachine {
  m_os : OS;
  m_power_plan : string;   (* active power scheme, as [_get_power_plan] names it *)
  m_gpu_load_high : bool   (* [GPUtil.getGPUs()[0].load > 0.3] *)
}.

Definition _load_game_database : list (string * (string * string)) :=
  [("csgo.exe", ("Counter-Strike: Global Offensive", "fps"));
   ("dota2.exe", ("Dota 2", "moba"));
   ("valorant.exe", ("Valorant", "fps"));
   ("leagueoflegends.exe", ("League of Legends", "moba"));
   ("overwatch.exe", ("Overwatch", "fps"));
   ("gta5.exe", ("Grand Theft Auto V", "action"));
   ("witcher3.exe", ("The Witcher 3", "rpg"));
   ("cyberpunk2077.exe", ("Cyberpunk 2077", "rpg"));
   ("minecraft.exe", ("Minecraft", "sandbox"));
   ("fortnite.exe", ("Fortnite", "battle_royale"));
   ("apex_legends.exe", ("Apex Legends", "battle_royale"));
   ("pubg.exe", ("PUBG", "battle_royale"));
   ("rocketleague.exe", ("Rocket League", "sports"));
   ("fifa23.exe", ("FIFA 23", "sports"));
   ("cod.exe", ("Call of Duty", "fps"));
   ("battlefield.exe", ("Battlefield", "fps"));
   ("rdr2.exe", ("Red Dead Redemption 2", "action"));
   ("eldenring.exe", ("Elden Ring", "rpg"))].

Definition init : GameDetector :=
  {| known_games := _load_game_database; gaming_processes := [];
     game_mode_active := false; original_settings := None |}.

Definition game_indicators : list string :=
  ["unreal"; "unity"; "cryengine"; "frostbite"; "gameoverlayui";
   "d3d"; "opengl"; "vulkan"; "directx"].

(** [set.add] *)
Definition set_add (x : Z) (s : list Z) : list Z :=
  if existsb (Z.eqb x) s then s else s ++ [x].

Definition add_gaming (gd : GameDetector) (pid : Z) : GameDetector :=
  {| known_games := known_games gd; gaming_processes := set_add pid (gaming_processes gd);
     game_mode_active := game_mode_active gd; original_settings := original_settings gd |}.

(** [_check_gpu_usage]: system-wide, the pid is not consulted *)
Definition _check_gpu_usage (m : Machine) (pid : Z) : bool := m_gpu_load_high m.

Fixpoint detect_games_aux (gd : GameDetector) (m : Machine) (processes : list Snapshot)
  : list Detected * GameDetector :=
  match processes with
  | [] => ([], gd)
  | process :: rest =>
      let process_name := lower (s_name process) in
      match PyDict.get String.eqb process_name (known_games gd) with
      | Some (gname, gtype) =>
          let game_info := mkDetected gname gtype (s_pid process) process_name None in
          let '(r, gd') := detect_games_aux (add_gaming gd (s_pid process)) m rest in
          (game_info :: r, gd')
      | None =>
          if existsb (fun indicator => contains process_name indicator) game_indicators then
            let game_info := mkDetected (s_name process) "unknown" (s_pid process)
                               process_name (Some "indicator") in
            let '(r, gd') := detect_games_aux (add_gaming gd (s_pid process)) m rest in
            (game_info :: r, gd')
          else if _check_gpu_usage m (s_pid process) then
            let game_info := mkDetected (s_name process) "unknown" (s_pid process)
                               process_name (Some "gpu_usage") in
            let '(r, gd') := detect_games_aux (add_gaming gd (s_pid process)) m rest in
            (game_info :: r, gd')
          else detect_games_aux gd m rest
      end
  end.

Definition detect_games (gd : GameDetector) (m : Machine) (processes : list Snapshot)
  : list Detected * GameDetector :=
  detect_games_aux gd m processes.

Definition with_machine_os (m : Machine) (os : OS) : Machine :=
  {| m_os := os; m_power_plan := m_power_plan m; m_gpu_load_high := m_gpu_load_high m |}.

(** [_set_power_plan]: only the three known plans are applied *)
Definition _set_power_plan (m : Machine) (plan : string) : Machine :=
  if existsb (String.eqb plan) ["balanced"; "high_performance"; "power_saver"]
  then {| m_os := m_os m; m_power_plan := plan; m_gpu_load_high := m_gpu_load_high m |}
  else m.

Definition _get_power_plan (m : Machine) : string :=
  if existsb (String.eqb (m_power_plan m)) ["balanced"; "high_performance"; "power_saver"]
  then m_power_plan m else "balanced".

Definition _store_original_settings (gd : GameDetector) (m : Machine) : GameDetector :=
  {| known_games := known_games gd; gaming_processes := gaming_processes gd;
     game_mode_active := game_mode_active gd;
     original_settings := Some (mkSettings (_get_power_plan m)) |}.

Definition _restore_original_settings (gd : GameDetector) (m : Machine) : Machine :=
  match original_settings gd with
  | Some s => _set_power_plan m (saved_power_plan s)
  | None => m
  end.

(** [_apply_system_game_mode]; the registry, nvidia-smi and netsh calls
    touch nothing this model tracks *)
Definition _apply_system_game_mode (m : Machine) : Machine :=
  _set_power_plan m "high_performance".

(** [_apply_game_optimizations]: [true] when it raises. The 'moba' and
    'rpg' branches call [_optimize_for_moba] and [_optimize_for_rpg],
    which the class does not define (AttributeError); the 'fps' branch
    wraps its work in a bare [except] and changes nothing this model
    tracks. *)
Definition _apply_game_optimizations (game : Detected) : bool :=
  String.eqb (d_type game) "moba" || String.eqb (d_type game) "rpg".

(** the loop of [enable_game_mode]: optimize the game's process with the
    "game" profile, then apply the game-specific optimizations; the
    boolean is [true] when the loop raised (the mutations made so far
    stay) *)
Fixpoint optimize_games (opt : Optimizer.SystemOptimizer) (m : Machine) (games : list Detected)
  : Optimizer.SystemOptimizer * Machine * bool :=
  match games with
  | [] => (opt, m, false)
  | g :: rest =>
      let '(_, opt', os') := Optimizer.optimize_process opt (m_os m) (d_pid g) (Some "game") in
      let m' := with_machine_os m os' in
      if _apply_game_optimizations g then (opt', m', true)
      else optimize_games opt' m' rest
  end.

Definition set_active (gd : GameDetector) (b : bool) : GameDetector :=
  {| known_games := known_games gd; gaming_processes := gaming_processes gd;
     game_mode_active := b; original_settings := original_settings gd |}.

(** [enable_game_mode]; the boolean is [true] when it raised: the
    settings are then stored and the games up to the raising one
    optimized, but the power plan and [game_mode_active] are left as
    they were. *)
Definition enable_game_mode (gd : GameDetector) (opt : Optimizer.SystemOptimizer)
  (m : Machine) (detected_games : list Detected)
  : GameDetector * Optimizer.SystemOptimizer * Machine * bool :=
  if game_mode_active gd then (gd, opt, m, false)
  else
    let gd1 := _store_original_settings gd m in
    let '(opt', m1, raised) := optimize_games opt m detected_games in
    if raised then (gd1, opt', m1, true)
    else
      let m2 := _apply_system_game_mode m1 in
      (set_active gd1 true, opt', m2, false).

Fixpoint remove_games (opt : Optimizer.SystemOptimizer) (m : Machine) (pids : list Z)
  : Optimizer.SystemOptimizer * Machine :=
  match pids with
  | [] => (opt, m)
  | pid :: rest =>
      let '(_, opt', os') := Optimizer.remove_optimization opt (m_os m) pid in
      remove_games opt' (with_machine_os m os') rest
  end.

Definition disable_game_mode (gd : GameDetector) (opt : Optimizer.SystemOptimizer)
  (m : Machine) : GameDetector * Optimizer.SystemOptimizer * Machine :=
  if negb (game_mode_active gd) then (gd, opt, m)
  else
    let '(opt', m1) := remove_games opt m (gaming_processes gd) in
    let m2 := _restore_original_settings gd m1 in
    ({| known_games := known_games gd; gaming_processes := [];
        game_mode_active := false; original_settings := original_settings gd |},
     opt', m2).




End GameDetector.

(* ------------------------------------------------------------------ *)
(** * monitor.py: [ProcessMonitor] *)

Module Monitor.

(** one entry of [psutil.process_iter([...])]; [rp_vanishes] when
    [proc.memory_info()] raises NoSuchProcess, AccessDenied or
    ZombieProcess *)
Record RawProc := mkRaw {
  rp_pid : Z;
  rp_name : string;
  rp_cpu_percent : Q;
  rp_memory_percent : Q;
  rp_vanishes : bool
}.

Definition max_processes : nat := 50.

(** [pinfo['cpu_percent'] == 0 and pinfo['memory_percent'] < 0.1] *)
Definition negligible (p : RawProc) : bool :=
  Qeq_bool (rp_cpu_percent p) 0 && negb (Qle_bool (1 # 10) (rp_memory_percent p)).

Definition snapshot_of (p : RawProc) : Snapshot :=
  mkSnapshot (rp_pid p) (rp_name p) (rp_cpu_percent p) (rp_memory_percent p).

(** the [for proc in psutil.process_iter(...)] loop *)
Fixpoint collect (iter : list RawProc) (process_count : nat) : list Snapshot :=
  match iter with
  | [] => []
  | p :: rest =>
      if Nat.leb max_processes process_count then []
      else if negligible p then collect rest process_count
      else if rp_vanishes p then collect rest process_count
      else snapshot_of p :: collect rest (S process_count)
  end.

Definition get_processes (iter : list RawProc) : list Snapshot :=
  take 30 (sort_desc s_cpu_percent (collect iter 0)).

(** a subscriber: [true] when the call raises *)
Definition Callback := list Snapshot -> bool.

Inductive Event :=
  | Called (index : nat) (processes : list Snapshot)
  | LoggedError.

(** [for callback in self.callbacks: callback(processes)]; an exception
    leaves the loop *)
Fixpoint notify (cbs : list Callback) (i : nat) (processes : list Snapshot)
  : list Event * bool :=
  match cbs with
  | [] => ([], false)
  | cb :: rest =>
      if cb processes then ([Called i processes], true)
      else let '(ev, raised) := notify rest (S i) processes in
           (Called i processes :: ev, raised)
  end.

(** one iteration of [_monitor_loop]: poll, notify, the [except] logging *)
Definition monitor_cycle (cbs : list Callback) (iter : list RawProc) : list Event :=
  let processes := get_processes iter in
  let '(ev, raised) := notify cbs 0 processes in
  ev ++ (if raised then [LoggedError] else []).

(** [_monitor_loop] while [self.monitoring], one process table per iteration *)
Definition monitor_loop (cbs : list Callback) (polls : list (list RawProc)) : list (list Event) :=
  map (monitor_cycle cbs) polls.

End Monitor.

(* ------------------------------------------------------------------ *)
(** * scheduler.py: [OptimizationScheduler] *)

Module Scheduler.
Local Open Scope string_scope.

(** an action dict: its ['type'] and its argument (apps, profile, script) *)
Record Action := mkAction { act_type : string; act_arg : list string }.

(** a job of the [schedule] library: which method it calls, and the
    [next_run] the library computed for it *)
Record Job := mkJob { job_target : string; job_next_run : Z }.

Record ScheduleInfo := mkInfo {
  si_id : string;
  si_name : string;
  si_type : string;
  si_time : option string;
  si_days : list string;
  si_interval : option Z;
  si_actions : list Action;
  si_enabled : bool;
  si_created : Z;
  si_last_run : option Z;
  si_next_run : option Z;
  si_job : option Job
}.

(** [executed] is the trace of [_execute_action] calls; [_save_schedules]
    writes a file this model does not track. *)
Record OptimizationScheduler := mkScheduler {
  schedules : list (string * ScheduleInfo);
  executed : list Action;
  now : Z
}.

Section WithScheduleLib.
(** the [schedule] library's computation of a new job's [next_run] *)
Variable next_run_of : string -> ScheduleInfo -> Z -> Z.
(** whether [getattr(schedule.every(), unit).at(time)] returns a job
    ([unit] is "day" for a daily schedule, the lower-cased day name for
    a weekly one); it raises for an attribute the job lacks or a time
    the library does not accept *)
Variable at_ok : string -> string -> bool.

Definition with_job (si : ScheduleInfo) (j : Job) : ScheduleInfo :=
  {| si_id := si_id si; si_name := si_name si; si_type := si_type si; si_time := si_time si;
     si_days := si_days si; si_interval := si_interval si; si_actions := si_actions si;
     si_enabled := si_enabled si; si_created := si_created si; si_last_run := si_last_run si;
     si_next_run := Some (job_next_run j); si_job := Some j |}.

Definition after_run (si : ScheduleInfo) (t : Z) : ScheduleInfo :=
  {| si_id := si_id si; si_name := si_name si; si_type := si_type si; si_time := si_time si;
     si_days := si_days si; si_interval := si_interval si; si_actions := si_actions si;
     si_enabled := si_enabled si; si_created := si_created si; si_last_run := Some t;
     si_next_run := match si_job si with
                    | Some j => Some (job_next_run j)
                    | None => si_next_run si
                    end;
     si_job := si_job si |}.

Definition _run_schedule (schedule_id : string) (st : OptimizationScheduler)
  : OptimizationScheduler :=
  match PyDict.get String.eqb schedule_id (schedules st) with
  | None => st
  | Some si =>
      if negb (si_enabled si) then st
      else
        {| schedules := PyDict.set String.eqb schedule_id (after_run si (now st)) (schedules st);
           executed := executed st ++ si_actions si;
           now := now st |}
  end.

Definition new_job (target : string) (si : ScheduleInfo) (st : OptimizationScheduler) : Job :=
  mkJob target (next_run_of (si_type si) si (now st)).

(** [_create_job]: [None] when it raises: [.at(None)] (no time), a
    time or a day name the library refuses, [every(None).minutes] (no
    interval), and a [weekly] schedule without days (its loop never
    binds [job]). For a weekly schedule the job of the last day is the
    one stored. *)
Definition _create_job (schedule_id : string) (si : ScheduleInfo) (st : OptimizationScheduler)
  : option (OptimizationScheduler * ScheduleInfo) :=
  let t := si_type si in
  if String.eqb t "daily" then
    match si_time si with
    | Some time => if at_ok "day" time
                   then Some (st, with_job si (new_job "_run_schedule" si st))
                   else None
    | None => None
    end
  else if String.eqb t "weekly" then
    match si_days si, si_time si with
    | [], _ => None
    | _, None => None
    | days, Some time =>
        if forallb (fun day => at_ok (lower day) time) days
        then Some (st, with_job si (new_job "_run_schedule" si st))
        else None
    end
  else if String.eqb t "interval" then
    match si_interval si with
    | Some _ => Some (st, with_job si (new_job "_run_schedule" si st))
    | None => None
    end
  else if String.eqb t "startup" then Some (_run_schedule schedule_id st, si)
  else if String.eqb t "idle" then Some (st, with_job si (new_job "_check_idle_and_run" si st))
  else Some (st, si).

(** [add_schedule] with the [uuid4] it draws given as [schedule_id] *)
Definition add_schedule (st : OptimizationScheduler) (schedule_id name schedule_type : string)
  (time_str : option string) (days : list string) (interval : option Z)
  (actions : list Action) (enabled : bool) : option (string * OptimizationScheduler) :=
  let si := {| si_id := schedule_id; si_name := name; si_type := schedule_type;
               si_time := time_str; si_days := days; si_interval := interval;
               si_actions := actions; si_enabled := enabled; si_created := now st;
               si_last_run := None; si_next_run := None; si_job := None |} in
  let created := if enabled then _create_job schedule_id si st else Some (st, si) in
  match created with
  | None => None
  | Some (st1, si1) =>
      Some (schedule_id,
            {| schedules := PyDict.set String.eqb schedule_id si1 (schedules st1);
               executed := executed st1; now := now st1 |})
  end.

End WithScheduleLib.

Definition empty : OptimizationScheduler := mkScheduler [] [] 0.

End Scheduler.

(* ================================================================== *)
(** * More of scheduler.py *)

Module SchedulerOps.
Import Scheduler.
Local Open Scope string_scope.

(** [self.schedules[schedule_id] = schedule_info] *)
Definition put (st : OptimizationScheduler) (schedule_id : string) (si : ScheduleInfo)
  : OptimizationScheduler :=
  {| schedules := PyDict.set String.eqb schedule_id si (schedules st);
     executed := executed st; now := now st |}.

Definition with_enabled (si : ScheduleInfo) (b : bool) : ScheduleInfo :=
  {| si_id := si_id si; si_name := si_name si; si_type := si_type si; si_time := si_time si;
     si_days := si_days si; si_interval := si_interval si; si_actions := si_actions si;
     si_enabled := b; si_created := si_created si; si_last_run := si_last_run si;
     si_next_run := si_next_run si; si_job := si_job si |}.

Definition without_job (si : ScheduleInfo) : ScheduleInfo :=
  {| si_id := si_id si; si_name := si_name si; si_type := si_type si; si_time := si_time si;
     si_days := si_days si; si_interval := si_interval si; si_actions := si_actions si;
     si_enabled := si_enabled si; si_created := si_created si; si_last_run := si_last_run si;
     si_next_run := si_next_run si; si_job := None |}.

(** [remove_schedule]; cancelling the job is the [schedule] library's *)
Definition remove_schedule (schedule_id : string) (st : OptimizationScheduler)
  : OptimizationScheduler :=
  match PyDict.get String.eqb schedule_id (schedules st) with
  | Some _ =>
      {| schedules := PyDict.del String.eqb schedule_id (schedules st);
         executed := executed st; now := now st |}
  | None => st
  end.

Section WithScheduleLib.
Variable next_run_of : string -> ScheduleInfo -> Z -> Z.
Variable at_ok : string -> string -> bool.

(** [enable_schedule]: the stored dict is mutated in place, so
    [_run_schedule] (startup) and the job fields written by [_create_job]
    (daily, weekly, interval, idle) both land in the stored entry.
    [None] when [_create_job] raises. *)
Definition enable_schedule (schedule_id : string) (enabled : bool) (st : OptimizationScheduler)
  : option OptimizationScheduler :=
  match PyDict.get String.eqb schedule_id (schedules st) with
  | None => Some st
  | Some si =>
      let si1 := with_enabled si enabled in
      let st1 := put st schedule_id si1 in
      if enabled then
        match _create_job next_run_of at_ok schedule_id si1 st1 with
        | None => None
        | Some (st2, si2) =>
            if existsb (String.eqb (si_type si)) ["daily"; "weekly"; "interval"; "idle"] then
              match si_job si2, PyDict.get String.eqb schedule_id (schedules st2) with
              | Some j, Some cur => Some (put st2 schedule_id (with_job cur j))
              | _, _ => Some st2
              end
            else Some st2
        end
      else
        match si_job si with
        | Some _ => Some (put st schedule_id (without_job si1))
        | None => Some st1
        end
  end.

(** [_check_idle_and_run]: [get_processes()] is called twice, once for
    the test and once for the value; [None] when the second poll is empty
    after a non-empty first one (IndexError). *)
Definition _check_idle_and_run (schedule_id : string) (poll1 poll2 : list Snapshot)
  (st : OptimizationScheduler) : option OptimizationScheduler :=
  let cpu_percent :=
    match poll1 with
    | [] => Some 0%Q
    | _ => match poll2 with
           | first :: _ => Some (s_cpu_percent first)
           | [] => None
           end
    end in
  match cpu_percent with
  | None => None
  | Some c => if negb (Qle_bool 10 c) then Some (_run_schedule schedule_id st) else Some st
  end.

End WithScheduleLib.

(** [sort(key=k)]: stable ascending order, i.e. the stable descending
    order of the negated key *)
Definition sort_asc {A} (key : A -> Z) (l : list A) : list A :=
  sort_desc (fun x => inject_Z (- key x)) l.

(** [get_next_runs]: (id, name, next_run, type) of the enabled schedules
    with a next run, soonest first *)
Definition get_next_runs (st : OptimizationScheduler) : list (string * string * Z * string) :=
  sort_asc (fun u : string * string * Z * string => snd (fst u))
    (flat_map (fun '(sid, si) =>
                 if si_enabled si then
                   match si_next_run si with
                   | Some t => [(sid, si_name si, t, si_type si)]
                   | None => []
                   end
                 else [])
              (schedules st)).

(** the optimizer side of [_execute_action]: [optimize_all] and
    [optimize_specific] (the other kinds do not touch the optimizer);
    [iter] is the process table [monitor.get_processes()] reads *)
Fixpoint optimize_each (opt : Optimizer.SystemOptimizer) (os : OS) (pids : list Z)
  : Optimizer.SystemOptimizer * OS :=
  match pids with
  | [] => (opt, os)
  | pid :: rest =>
      let '(_, opt', os') := Optimizer.optimize_process opt os pid None in
      optimize_each opt' os' rest
  end.

Definition busy_enough (p : Snapshot) : bool :=
  negb (Qle_bool (s_cpu_percent p) 5) || negb (Qle_bool (s_memory_percent p) 5).

Definition action_targets (action : Action) (iter : list Monitor.RawProc) : list Z :=
  let processes := Monitor.get_processes iter in
  if String.eqb (act_type action) "optimize_all" then
    map s_pid (filter busy_enough (take 10 processes))
  else if String.eqb (act_type action) "optimize_specific" then
    map s_pid (filter (fun p => existsb (fun app => contains (lower (s_name p)) (lower app))
                                        (act_arg action)) processes)
  else [].

Definition _execute_action (opt : Optimizer.SystemOptimizer) (os : OS)
  (iter : list Monitor.RawProc) (action : Action) : Optimizer.SystemOptimizer * OS :=
  optimize_each opt os (action_targets action iter).

End SchedulerOps.

(* ================================================================== *)
(** * The caller in ui/main_window.py *)

Module MainWindow.
Import GameDetector.

(** [_check_for_games]: the detector's state, the optimizer and the
    machine after one check, and whether it raised (from
    [enable_game_mode]); the label and notification updates only touch
    the window. *)
Definition _check_for_games (game_mode_auto : bool) (gd : GameDetector)
  (opt : Optimizer.SystemOptimizer) (m : Machine) (iter : list Monitor.RawProc)
  : GameDetector * Optimizer.SystemOptimizer * Machine * bool :=
  if negb game_mode_auto then (gd, opt, m, false)
  else
    let processes := Monitor.get_processes iter in
    let '(detected_games, gd1) := detect_games gd m processes in
    match detected_games with
    | _ :: _ => if negb (game_mode_active gd1) then enable_game_mode gd1 opt m detected_games
                else (gd1, opt, m, false)
    | [] => if game_mode_active gd1 then
              let '(gd2, opt2, m2) := disable_game_mode gd1 opt m in (gd2, opt2, m2, false)
            else (gd1, opt, m, false)
    end.

End MainWindow.

(* ================================================================== *)
(** * Concrete fixtures *)

Module Fixtures.
Local Open Scope string_scope.

Definition chrome : Proc :=
  mkProc "Chrome.exe" 0 [0] (Some (mkMetrics 40 512 12)) true.

Definition os1 : OS := mkOS [(7, chrome)] 8 100 true true true.



Definition linux0 : Optimizer.SystemOptimizer :=
  Optimizer.mkOptimizer "Linux" [] Optimizer.default_profiles.

Definition csgo : Snapshot := mkSnapshot 7 "csgo.exe" 55 12.

Definition machine0 : GameDetector.Machine := GameDetector.mkMachine os1 "balanced" false.

Definition clean_memory : Scheduler.Action := Scheduler.mkAction "clean_memory" [].

(** [n] busy processes, pid [i] using [i]% CPU, in iteration order *)
Definition busy (n : nat) : list Monitor.RawProc :=
  map (fun i => Monitor.mkRaw (Z.of_nat i) "worker" (inject_Z (Z.of_nat i)) 1 false)
      (seq 1 n).

Definition raising : Monitor.Callback := fun _ => true.
Definition quiet : Monitor.Callback := fun _ => false.

End Fixtures.

(* ================================================================== *)
(** * Facts about the Python dict model *)

Module PyDictFacts.
Section Facts.
Context {K V : Type} (eqk : K -> K -> bool).
Hypothesis eqk_spec : forall a b, eqk a b = true <-> a = b.

Lemma eqk_refl (a : K) : eqk a a = true.
Proof. apply eqk_spec; reflexivity. Qed.

Lemma eqk_neq (a b : K) : a <> b -> eqk a b = false.
Proof.
  intros H. destruct (eqk a b) eqn:E; [|reflexivity].
  apply eqk_spec in E; contradiction.
Qed.

Lemma get_set_same (k : K) (v : V) d : PyDict.get eqk k (PyDict.set eqk k v d) = Some v.
Proof.
  induction d as [|[k' v'] t IH]; simpl.
  - rewrite eqk_refl; reflexivity.
  - destruct (eqk k k') eqn:E; simpl.
    + apply eqk_spec in E; subst; rewrite eqk_refl; reflexivity.
    + rewrite E; exact IH.
Qed.

Lemma get_set_other (k q : K) (v : V) d :
  q <> k -> PyDict.get eqk q (PyDict.set eqk k v d) = PyDict.get eqk q d.
Proof.
  intros Hne. induction d as [|[k' v'] t IH]; simpl.
  - rewrite (eqk_neq _ _ Hne); reflexivity.
  - destruct (eqk k k') eqn:E; simpl.
    + apply eqk_spec in E; subst. rewrite (eqk_neq _ _ Hne); reflexivity.
    + destruct (eqk q k'); [reflexivity | exact IH].
Qed.



Lemma get_del_other (k q : K) (d : list (K * V)) :
  q <> k -> PyDict.get eqk q (PyDict.del eqk k d) = PyDict.get eqk q d.
Proof.
  intros Hne. induction d as [|[k' v'] t IH]; simpl; [reflexivity|].
  destruct (eqk k k') eqn:E; simpl.
  - apply eqk_spec in E; subst. rewrite (eqk_neq _ _ Hne); reflexivity.
  - destruct (eqk q k'); [reflexivity | exact IH].
Qed.

Lemma get_none_not_in (k : K) (d : list (K * V)) : ~ In k (map fst d) -> PyDict.get eqk k d = None.
Proof.
  induction d as [|[k' v'] t IH]; simpl; intros Hn; [reflexivity|].
  rewrite eqk_neq by (intros ->; tauto). apply IH; tauto.
Qed.

Lemma get_del_same (k : K) (d : list (K * V)) :
  NoDup (map fst d) -> PyDict.get eqk k (PyDict.del eqk k d) = None.
Proof.
  induction d as [|[k' v'] t IH]; simpl; intros Hnd; [reflexivity|].
  inversion Hnd as [|? ? Hn Hnd']; subst.
  destruct (eqk k k') eqn:E; simpl.
  - apply eqk_spec in E; subst. apply get_none_not_in; exact Hn.
  - rewrite E; apply IH; exact Hnd'.
Qed.

End Facts.
End PyDictFacts.

Section DictMore.
Context {K V : Type} (eqk : K -> K -> bool).
Hypothesis eqk_spec : forall a b, eqk a b = true <-> a = b.

Lemma set_set_same (k : K) (v v' : V) (d : list (K * V)) :
  PyDict.set eqk k v (PyDict.set eqk k v' d) = PyDict.set eqk k v d.
Proof.
  induction d as [|[k' w] t IH]; simpl.
  - rewrite (PyDictFacts.eqk_refl eqk eqk_spec); reflexivity.
  - destruct (eqk k k') eqn:E; simpl; rewrite E; [reflexivity | rewrite IH; reflexivity].
Qed.

Lemma keys_del (k : K) (d : list (K * V)) (x : K) :
  In x (map fst (PyDict.del eqk k d)) -> In x (map fst d).
Proof.
  induction d as [|[k' w] t IH]; simpl; [tauto|].
  destruct (eqk k k'); simpl; tauto.
Qed.

Lemma nodup_del (k : K) (d : list (K * V)) :
  NoDup (map fst d) -> NoDup (map fst (PyDict.del eqk k d)).
Proof.
  induction d as [|[k' w] t IH]; simpl; intros Hnd; [constructor|].
  inversion Hnd as [|? ? Hn Hnd']; subst.
  destruct (eqk k k'); simpl; [exact Hnd'|].
  constructor; [intros H; apply Hn, (keys_del k t), H | apply IH, Hnd'].
Qed.

End DictMore.

Lemma Zeqb_spec (a b : Z) : Z.eqb a b = true <-> a = b.
Proof. apply Z.eqb_eq. Qed.

Lemma stringeqb_spec (a b : string) : String.eqb a b = true <-> a = b.
Proof. apply String.eqb_eq. Qed.

(* ================================================================== *)
(** * Facts about the stable descending sort *)

Module SortFacts.
Section Facts.
Context {A : Type} (key : A -> Q).

Definition desc (a b : A) : Prop := (key b <= key a)%Q.

Lemma insert_desc_perm x l : Permutation (insert_desc key x l) (x :: l).
Proof.
  induction l as [|y t IH]; simpl; [reflexivity|].
  destruct (Qle_bool (key y) (key x)); [reflexivity|].
  rewrite IH. apply perm_swap.
Qed.

Lemma sort_desc_perm l : Permutation (sort_desc key l) l.
Proof.
  induction l as [|x t IH]; simpl; [reflexivity|].
  rewrite insert_desc_perm. now apply perm_skip.
Qed.

Lemma insert_desc_sorted x l : Sorted desc l -> Sorted desc (insert_desc key x l).
Proof.
  induction 1 as [|y t Hs IH Hhd]; simpl; [repeat constructor|].
  destruct (Qle_bool (key y) (key x)) eqn:E.
  - constructor; [constructor; assumption|]. constructor.
    unfold desc. apply Qle_bool_iff; exact E.
  - assert (Hlt : (key x <= key y)%Q).
    { apply Qlt_le_weak, Qnot_le_lt. intros Hc. apply Qle_bool_iff in Hc. congruence. }
    constructor; [exact IH|].
    destruct t as [|z t']; simpl; [constructor; exact Hlt|].
    inversion Hhd; subst.
    destruct (Qle_bool (key z) (key x)); constructor; assumption.
Qed.

Lemma sort_desc_sorted l : Sorted desc (sort_desc key l).
Proof.
  induction l as [|x t IH]; simpl; [constructor|]. now apply insert_desc_sorted.
Qed.

Lemma sort_desc_strongly l : StronglySorted desc (sort_desc key l).
Proof.
  apply Sorted_StronglySorted; [|apply sort_desc_sorted].
  intros a b c H1 H2; unfold desc in *; eapply Qle_trans; eassumption.
Qed.

Lemma strongly_app_split (l1 l2 : list A) :
  StronglySorted desc (l1 ++ l2) -> forall x y, In x l1 -> In y l2 -> desc x y.
Proof.
  induction l1 as [|a t IH]; simpl; intros Hs x y Hx Hy; [contradiction|].
  inversion Hs as [|? ? Hs' Hall]; subst.
  destruct Hx as [->|Hx].
  - rewrite Forall_forall in Hall. apply Hall, in_or_app; right; exact Hy.
  - eapply IH; eassumption.
Qed.

(** stability: the elements of one key keep their relative order *)
Lemma insert_desc_stable x l c :
  filter (fun a => Qeq_bool (key a) c) (insert_desc key x l) =
  filter (fun a => Qeq_bool (key a) c) (x :: l).
Proof.
  induction l as [|y t IH]; simpl; [reflexivity|].
  destruct (Qle_bool (key y) (key x)) eqn:Hle; [reflexivity|].
  simpl. rewrite IH. simpl.
  destruct (Qeq_bool (key y) c) eqn:Hy; destruct (Qeq_bool (key x) c) eqn:Hx; try reflexivity.
  apply Qeq_bool_iff in Hy, Hx.
  assert (Hq : Qle_bool (key y) (key x) = true)
    by (apply Qle_bool_iff; rewrite Hy, Hx; apply Qle_refl).
  congruence.
Qed.

Lemma sort_desc_stable l c :
  filter (fun a => Qeq_bool (key a) c) (sort_desc key l) =
  filter (fun a => Qeq_bool (key a) c) l.
Proof.
  induction l as [|x t IH]; simpl; [reflexivity|].
  rewrite insert_desc_stable. simpl. rewrite IH. reflexivity.
Qed.

End Facts.
End SortFacts.

(* ================================================================== *)
(** * optimizer.py *)

Module OptimizerFacts.
Import Optimizer Fixtures.

Lemma set_process_priority_keeps st p prio :
  pr_name (snd (_set_process_priority st p prio)) = pr_name p /\
  pr_metrics (snd (_set_process_priority st p prio)) = pr_metrics p.
Proof.
  unfold _set_process_priority, ps_set_nice.
  destruct (priority_map _ _); [destruct (pr_can_set p)|]; simpl; auto.
Qed.

Lemma set_cpu_affinity_keeps os p a :
  pr_name (snd (_set_cpu_affinity os p a)) = pr_name p /\
  pr_metrics (snd (_set_cpu_affinity os p a)) = pr_metrics p.
Proof.
  unfold _set_cpu_affinity, ps_set_affinity.
  repeat match goal with
         | |- context [if ?c then _ else _] => destruct c
         end; simpl; auto.
Qed.




















End OptimizerFacts.

Module OptimizerRemoval.
Import Optimizer Fixtures OptimizerFacts.




(** C10: with no optimization record, [get_optimization_stats] reports
    zero processes, zero total and average boost (no division) and an
    empty top list. *)
Theorem C10_stats_without_records (st : SystemOptimizer)
  (Hempty : optimized_processes st = []) :
  get_optimization_stats st = mkStats 0 0%Q 0 [].
Proof. unfold get_optimization_stats. rewrite Hempty. reflexivity. Qed.

(** witness of [C10_stats_without_records] on a fresh optimizer *)
Lemma C10_witness :
  optimized_processes linux0 = [] /\ get_optimization_stats linux0 = mkStats 0 0%Q 0 [].
Proof. split; [reflexivity | apply C10_stats_without_records; reflexivity]. Defined.

End OptimizerRemoval.

(* ================================================================== *)
(** * game_detector.py *)

Module GameDetectorFacts.
Import GameDetector Fixtures.
Local Open Scope string_scope.

(** the frame of [detect_games]: only [gaming_processes] moves, by the
    detected pids *)
Lemma detect_games_frame (gd : GameDetector) (m : Machine) (ps : list Snapshot) :
  let '(detected, gd') := detect_games gd m ps in
  known_games gd' = known_games gd /\
  game_mode_active gd' = game_mode_active gd /\
  original_settings gd' = original_settings gd /\
  gaming_processes gd' =
    fold_left (fun s d => set_add (d_pid d) s) detected (gaming_processes gd).
Proof.
  unfold detect_games. revert gd.
  induction ps as [|p rest IH]; intros gd; cbn [detect_games_aux]; [auto|].
  destruct (PyDict.get String.eqb (lower (s_name p)) (known_games gd)) as [[gname gtype]|].
  - specialize (IH (add_gaming gd (s_pid p))).
    destruct (detect_games_aux (add_gaming gd (s_pid p)) m rest) as [r gd'].
    simpl; exact IH.
  - destruct (existsb (fun indicator => contains (lower (s_name p)) indicator) game_indicators).
    + specialize (IH (add_gaming gd (s_pid p))).
      destruct (detect_games_aux (add_gaming gd (s_pid p)) m rest) as [r gd'].
      simpl; exact IH.
    + destruct (_check_gpu_usage m (s_pid p)).
      * specialize (IH (add_gaming gd (s_pid p))).
        destruct (detect_games_aux (add_gaming gd (s_pid p)) m rest) as [r gd'].
        simpl; exact IH.
      * apply IH.
Qed.












(** C3 (counterexample): detecting csgo on a fresh detector adds pid 7
    to [gaming_processes]: detection changes the detector's state. *)
Lemma C3_detect_changes_gaming_processes :
  gaming_processes (snd (detect_games init machine0 [csgo])) = [7%Z] /\
  gaming_processes init = [].
Proof. vm_compute. split; reflexivity. Qed.

(** C3 (amended): [detect_games] leaves the game database, the game-mode
    flag and the saved settings unchanged and touches no OS state (its
    result has no machine component), but adds every detected pid to
    [gaming_processes]. *)
Theorem C3_detect_games_only_tracks_pids (gd : GameDetector) (m : Machine) (ps : list Snapshot) :
  let '(detected, gd') := detect_games gd m ps in
  known_games gd' = known_games gd /\
  game_mode_active gd' = game_mode_active gd /\
  original_settings gd' = original_settings gd /\
  gaming_processes gd' =
    fold_left (fun s d => set_add (d_pid d) s) detected (gaming_processes gd).
Proof. apply detect_games_frame. Qed.

(** C4 (code bug): a known game is reported without a [detected_by]
    label, while the indicator and GPU branches label theirs. *)
Theorem C4_known_game_has_no_detected_by :
  fst (detect_games init machine0 [csgo]) =
    [mkDetected "Counter-Strike: Global Offensive" "fps" 7 "csgo.exe" None] /\
  fst (detect_games init machine0 [mkSnapshot 8 "UnrealEditor.exe" 30 10]) =
    [mkDetected "UnrealEditor.exe" "unknown" 8 "unrealeditor.exe" (Some "indicator")].
Proof. vm_compute. split; reflexivity. Qed.

End GameDetectorFacts.

(* ================================================================== *)
(** * monitor.py *)

Module MonitorFacts.
Import Monitor Fixtures.

(** position of the first subscriber that raises on [ps] *)
Fixpoint first_raise (cbs : list Callback) (ps : list Snapshot) : option nat :=
  match cbs with
  | [] => None
  | cb :: rest => if cb ps then Some O else option_map S (first_raise rest ps)
  end.

(** the events of one cycle, by where the first raise is *)
Definition cycle_events (cbs : list Callback) (ps : list Snapshot) : list Event :=
  match first_raise cbs ps with
  | Some k => map (fun i => Called i ps) (seq 0 (S k)) ++ [LoggedError]
  | None => map (fun i => Called i ps) (seq 0 (List.length cbs))
  end.

Lemma notify_spec (cbs : list Callback) (i : nat) (ps : list Snapshot) :
  notify cbs i ps =
  match first_raise cbs ps with
  | Some k => (map (fun j => Called j ps) (seq i (S k)), true)
  | None => (map (fun j => Called j ps) (seq i (List.length cbs)), false)
  end.
Proof.
  revert i. induction cbs as [|cb rest IH]; intros i; simpl; [reflexivity|].
  destruct (cb ps); [reflexivity|].
  rewrite IH. destruct (first_raise rest ps); reflexivity.
Qed.

(** C6 (counterexample): with a raising subscriber registered first, the
    second subscriber is not called in that cycle. *)
Lemma C6_raise_skips_later_subscribers :
  monitor_cycle [raising; quiet] [] = [Called 0 []; LoggedError] /\
  ~ In (Called 1 (get_processes [])) (monitor_cycle [raising; quiet] []).
Proof.
  split; [reflexivity|]. vm_compute. intros [H|[H|[]]]; discriminate.
Qed.

(** C6 (amended): in each cycle the subscribers are called in
    registration order with the same snapshot list up to and including
    the first one that raises; that error is logged once and the
    remaining subscribers are skipped for the cycle; every poll of the
    loop still runs its cycle. *)
Theorem C6_monitor_loop_events (cbs : list Callback) (polls : list (list RawProc)) :
  monitor_loop cbs polls = map (fun iter => cycle_events cbs (get_processes iter)) polls.
Proof.
  unfold monitor_loop. apply map_ext. intros iter.
  unfold monitor_cycle, cycle_events. rewrite notify_spec.
  destruct (first_raise cbs (get_processes iter)); simpl; [reflexivity|].
  rewrite app_nil_r; reflexivity.
Qed.


(** a process the poll keeps: not negligible, and readable *)
Definition qualifying (p : RawProc) : bool := negb (negligible p) && negb (rp_vanishes p).

Lemma collect_spec (iter : list RawProc) (k : nat) :
  (k <= max_processes)%nat ->
  collect iter k = firstn (max_processes - k) (map snapshot_of (filter qualifying iter)).
Proof.
  revert k. induction iter as [|p rest IH]; intros k Hk; cbn [collect filter map].
  - rewrite firstn_nil; reflexivity.
  - destruct (Nat.leb max_processes k) eqn:Hle.
    + apply Nat.leb_le in Hle. replace (max_processes - k)%nat with O by lia. reflexivity.
    + apply Nat.leb_gt in Hle. unfold qualifying.
      destruct (negligible p); cbn [negb andb]; [apply IH; lia|].
      destruct (rp_vanishes p); cbn [negb andb]; [apply IH; lia|].
      replace (max_processes - k)%nat with (S (max_processes - S k)) by lia.
      cbn [map firstn]. f_equal. apply IH. lia.
Qed.

Lemma qualifying_not_negligible (p : RawProc) :
  qualifying p = true ->
  ~ (rp_cpu_percent p == 0)%Q \/ (1 # 10 <= rp_memory_percent p)%Q.
Proof.
  unfold qualifying, negligible. intros H.
  apply andb_true_iff in H as [H _]. apply negb_true_iff, andb_false_iff in H.
  destruct H as [H | H].
  - left. intros Hc. apply Qeq_bool_iff in Hc. congruence.
  - right. apply negb_false_iff, Qle_bool_iff in H. exact H.
Qed.

(** C9 (counterexample): with 51 busy processes, pid [i] at [i]% CPU in
    iteration order, the poll stops collecting after 50: pid 51, the
    busiest, is missing while pid 21 (21% CPU) is returned. *)
Lemma C9_poll_misses_busiest_late_process :
  In 21%Z (map s_pid (get_processes (busy 51))) /\
  ~ In 51%Z (map s_pid (get_processes (busy 51))).
Proof.
  split.
  - vm_compute. repeat (first [left; reflexivity | right]).
  - vm_compute. intuition discriminate.
Qed.

(** C9 (amended): a poll returns min(30, pool size) snapshots in
    descending CPU order, each with nonzero CPU or at least 0.1% memory;
    they are the 30 busiest of a pool made of the first 50
    non-negligible, readable processes in iteration order, not of the
    whole process table: the result followed by the rest of the pool is
    the pool stably sorted by descending CPU (processes of equal CPU keep
    their pool order). *)
Theorem C9_get_processes_spec (iter : list RawProc) :
  let res := get_processes iter in
  let pool := firstn max_processes (map snapshot_of (filter qualifying iter)) in
  List.length res = Nat.min 30 (List.length pool) /\
  (exists rest, Permutation (res ++ rest) pool /\
     StronglySorted (fun a b => s_cpu_percent b <= s_cpu_percent a)%Q (res ++ rest) /\
     (forall c, filter (fun s => Qeq_bool (s_cpu_percent s) c) (res ++ rest) =
                filter (fun s => Qeq_bool (s_cpu_percent s) c) pool)) /\
  Sorted (fun a b => s_cpu_percent b <= s_cpu_percent a)%Q res /\
  (forall s, In s res -> In s pool) /\
  (forall s, In s res -> ~ (s_cpu_percent s == 0)%Q \/ (1 # 10 <= s_memory_percent s)%Q) /\
  (forall s s', In s pool -> ~ In s res -> In s' res -> (s_cpu_percent s <= s_cpu_percent s')%Q).
Proof.
  cbv zeta. unfold get_processes. rewrite (collect_spec iter 0) by (unfold max_processes; lia).
  rewrite Nat.sub_0_r.
  set (pool := firstn max_processes (map snapshot_of (filter qualifying iter))).
  set (sorted := sort_desc s_cpu_percent pool).
  assert (Hperm : Permutation sorted pool) by apply SortFacts.sort_desc_perm.
  assert (Hstrong : StronglySorted (SortFacts.desc s_cpu_percent) sorted)
    by apply SortFacts.sort_desc_strongly.
  assert (Hsplit : sorted = take 30 sorted ++ skipn 30 sorted)
    by (symmetry; apply firstn_skipn).
  assert (Hin : forall s, In s (take 30 sorted) -> In s pool).
  { intros s Hs. apply (Permutation_in _ Hperm). rewrite Hsplit. apply in_or_app; left; exact Hs. }
  split; [unfold take; rewrite length_firstn, (Permutation_length Hperm); reflexivity|].
  split.
  { exists (skipn 30 sorted). unfold take. rewrite firstn_skipn.
    split; [exact Hperm|]. split; [exact Hstrong|].
    intros c. apply SortFacts.sort_desc_stable. }
  split.
  - apply StronglySorted_Sorted.
    clear Hin Hsplit Hperm. unfold take. revert Hstrong. generalize sorted as l.
    intros l. generalize 30%nat as n. revert l.
    induction l as [|a t IH]; intros n Hs; destruct n; simpl; try constructor;
      inversion Hs as [|? ? Hs' Hall]; subst.
    + apply IH; exact Hs'.
    + rewrite Forall_forall in *. intros x Hx. apply Hall.
      rewrite <- (firstn_skipn n t). apply in_or_app; left; exact Hx.
  - split; [exact Hin|]. split.
    + intros s Hs. apply Hin in Hs. unfold pool in Hs.
      assert (Hm : In s (map snapshot_of (filter qualifying iter))).
      { rewrite <- (firstn_skipn max_processes (map snapshot_of (filter qualifying iter))).
        apply in_or_app; left; exact Hs. }
      apply in_map_iff in Hm as [p [<- Hp]]. apply filter_In in Hp as [_ Hq].
      apply qualifying_not_negligible in Hq. exact Hq.
    + intros s s' Hs Hns Hs'.
      apply (Permutation_in _ (Permutation_sym Hperm)) in Hs.
      rewrite Hsplit in Hs. apply in_app_or in Hs as [Hs | Hs]; [contradiction|].
      rewrite Hsplit in Hstrong.
      exact (SortFacts.strongly_app_split s_cpu_percent _ _ Hstrong s' s Hs' Hs).
Qed.

End MonitorFacts.

(* ================================================================== *)
(** * scheduler.py *)

Module SchedulerFacts.
Import Scheduler Fixtures.
Local Open Scope string_scope.

(** C7 (code bug): adding an enabled startup schedule to a fresh
    scheduler runs none of its actions. [_create_job] calls
    [_run_schedule] before [add_schedule] stores the schedule, so
    [_run_schedule] finds no such id and returns; the schedule is stored
    with no job, no next run and no last run. *)
Theorem C7_startup_schedule_runs_nothing (next_run_of : string -> ScheduleInfo -> Z -> Z)
  (at_ok : string -> string -> bool) :
  match add_schedule next_run_of at_ok empty "id1" "boot" "startup" None [] None [clean_memory] true with
  | Some (sid, st) =>
      sid = "id1" /\ executed st = [] /\
      option_map (fun si => (si_job si, si_next_run si, si_last_run si))
                 (PyDict.get String.eqb "id1" (schedules st)) = Some (None, None, None)
  | None => False
  end.
Proof. simpl. split; [reflexivity|]. split; reflexivity. Qed.

End SchedulerFacts.

(* ================================================================== *)
(** * Further properties of optimizer.py *)

Module OptimizerExtra.
Import Optimizer Fixtures.
Local Open Scope string_scope.





(** [_set_process_priority] off Windows: a successful change sets a nice
    value in [-20, 19] and changes nothing else; a failed one (unknown
    priority name, or [nice] refused) leaves the process unchanged. *)
Theorem X_priority_nice_range (st : SystemOptimizer) (p : Proc) (prio : string)
  (Hplat : platform st <> "Windows"%string) :
  let '(ok, p') := _set_process_priority st p prio in
  if ok then -20 <= pr_nice p' <= 19 /\ p' = with_nice p (pr_nice p')
  else p' = p.
Proof.
  unfold _set_process_priority, priority_map, ps_set_nice.
  apply String.eqb_neq in Hplat. rewrite Hplat.
  repeat match goal with
         | |- context [if ?c then _ else _] => destruct c eqn:?
         end; simpl; try reflexivity; split; (lia || reflexivity).
Qed.

(** witness of [X_priority_nice_range]: Chrome to "high" on Linux *)
Lemma X_priority_nice_range_witness :
  platform linux0 <> "Windows"%string /\
  (let '(ok, p') := _set_process_priority linux0 chrome "high" in
   if ok then -20 <= pr_nice p' <= 19 /\ p' = with_nice chrome (pr_nice p')
   else p' = chrome).
Proof. split; [discriminate | apply X_priority_nice_range; discriminate]. Defined.


Lemma set_process_priority_can_set st p prio :
  pr_can_set (snd (_set_process_priority st p prio)) = pr_can_set p.
Proof.
  unfold _set_process_priority, ps_set_nice.
  destruct (priority_map _ _); [destruct (pr_can_set p) eqn:E|]; simpl; auto.
Qed.

Lemma set_cpu_affinity_can_set os p a :
  pr_can_set (snd (_set_cpu_affinity os p a)) = pr_can_set p.
Proof.
  unfold _set_cpu_affinity, ps_set_affinity.
  repeat match goal with
         | |- context [if ?c then _ else _] => destruct c eqn:?
         end; simpl; auto.
Qed.

(** [optimize_process] on a live process: one record written at the pid,
    one process updated in the OS table, privileges kept. *)
Lemma optimize_process_live st os pid profile_name p :
  proc_of os pid = Some p ->
  exists res r p2,
    optimize_process st os pid profile_name =
      (res, with_records st (PyDict.set Z.eqb pid r (optimized_processes st)),
       put_proc os pid p2) /\
    pr_can_set p2 = pr_can_set p /\
    r_profile r = select_profile st (lower (pr_name p)) profile_name.
Proof.
  intros Hp. unfold optimize_process. rewrite Hp.
  set (prof := select_profile st (lower (pr_name p)) profile_name).
  pose proof (set_process_priority_can_set st p (pf_priority prof)) as C1.
  destruct (_set_process_priority st p _) as [ok1 p1].
  pose proof (set_cpu_affinity_can_set os p1 (pf_cpu_affinity prof)) as C2.
  destruct (_set_cpu_affinity os p1 _) as [ok2 p2].
  simpl in C1, C2. do 3 eexists. split; [reflexivity|]. split; [congruence | reflexivity].
Qed.

Lemma gpu_applied_windows (prof : Profile) st os :
  pf_gpu_acceleration prof && String.eqb (platform st) "Windows"
  && _enable_gpu_acceleration st os = true -> platform st = "Windows"%string.
Proof.
  intros H. apply andb_true_iff in H as [H _]. apply andb_true_iff in H as [_ H].
  apply String.eqb_eq, H.
Qed.

Lemma memory_applied_platform (prof : Profile) st os :
  pf_memory_optimization prof && _optimize_memory st os = true ->
  platform st = "Windows"%string \/ platform st = "Linux"%string.
Proof.
  unfold _optimize_memory. intros H.
  apply andb_true_iff in H as [_ H]. apply andb_true_iff in H as [H _].
  apply orb_true_iff in H as [H|H]; apply String.eqb_eq in H; tauto.
Qed.

Lemma io_applied_platform (prof : Profile) st os :
  negb (String.eqb (pf_disk_priority prof) "") &&
  _set_io_priority st os (pf_disk_priority prof) = true ->
  platform st = "Windows"%string \/ platform st = "Linux"%string.
Proof.
  unfold _set_io_priority, io_map_has. intros H.
  apply andb_true_iff in H as [_ H]. apply andb_true_iff in H as [H _].
  destruct (String.eqb (platform st) "Windows") eqn:W; [apply String.eqb_eq in W; tauto|].
  destruct (String.eqb (platform st) "Linux") eqn:L; [apply String.eqb_eq in L; tauto|].
  discriminate.
Qed.

Definition optimization_kinds : list string :=
  ["priority"; "cpu_affinity"; "gpu_acceleration"; "memory_optimization"; "io_priority"].

(** [optimize_process] on a live process: the list of applied
    optimizations stored in the record has no repetition and only the
    five known kinds; GPU acceleration is only ever applied on Windows,
    and on a platform other than Windows and Linux only the priority and
    the CPU affinity can be applied. The returned message counts the
    applied optimizations. *)
Theorem X_applied_optimizations (st : SystemOptimizer) (os : OS) (pid : Z)
  (profile_name : option string) (p : Proc)
  (Hp : proc_of os pid = Some p) :
  let '(res, st', _) := optimize_process st os pid profile_name in
  exists r, PyDict.get Z.eqb pid (optimized_processes st') = Some r /\
    NoDup (r_optimizations r) /\
    incl (r_optimizations r) optimization_kinds /\
    (platform st <> "Windows"%string -> ~ In "gpu_acceleration"%string (r_optimizations r)) /\
    (platform st <> "Windows"%string -> platform st <> "Linux"%string ->
       incl (r_optimizations r) ["priority"; "cpu_affinity"]%string) /\
    snd res = ("Applied " ++ string_of_nat (List.length (r_optimizations r))
               ++ " optimizations")%string.
Proof.
  unfold optimize_process. rewrite Hp.
  set (prof := select_profile st (lower (pr_name p)) profile_name).
  destruct (_set_process_priority st p _) as [ok1 p1].
  destruct (_set_cpu_affinity os p1 _) as [ok2 p2].
  pose proof (gpu_applied_windows prof st os) as G.
  pose proof (memory_applied_platform prof st os) as M.
  pose proof (io_applied_platform prof st os) as I.
  destruct (pf_gpu_acceleration prof && _ && _);
  destruct (pf_memory_optimization prof && _);
  destruct (negb _ && _);
  specialize (G eq_refl) || clear G;
  specialize (M eq_refl) || clear M;
  specialize (I eq_refl) || clear I;
  destruct ok1, ok2;
  (eexists; split; [apply (PyDictFacts.get_set_same _ Zeqb_spec)|]); simpl;
  (split; [repeat constructor; simpl; intuition discriminate|]);
  (split; [intros x Hx; simpl in Hx; unfold optimization_kinds; simpl; intuition|]);
  (split; [intros Hw Hin; simpl in Hin; intuition (try discriminate); try congruence|]);
  (split; [intros Hw Hl x Hx; simpl in Hx; simpl; intuition (try congruence)|]);
  reflexivity.
Qed.

(** witness of [X_applied_optimizations] on Chrome, pid 7 *)
Lemma X_applied_optimizations_witness :
  proc_of os1 7 = Some chrome /\
  (let '(res, st', _) := optimize_process linux0 os1 7 None in
   exists r, PyDict.get Z.eqb 7 (optimized_processes st') = Some r /\
     NoDup (r_optimizations r) /\
     incl (r_optimizations r) optimization_kinds /\
     (platform linux0 <> "Windows"%string -> ~ In "gpu_acceleration"%string (r_optimizations r)) /\
     (platform linux0 <> "Windows"%string -> platform linux0 <> "Linux"%string ->
        incl (r_optimizations r) ["priority"; "cpu_affinity"]%string) /\
     snd res = ("Applied " ++ string_of_nat (List.length (r_optimizations r))
                ++ " optimizations")%string).
Proof. split; [reflexivity | apply (X_applied_optimizations linux0 os1 7 None chrome); reflexivity]. Defined.



(** [calculate_boost] is stable: computing the boost again against the
    same process table returns the same value and leaves the state as the
    first call left it (the stored boost is overwritten with itself). *)
Theorem X_calculate_boost_stable (st : SystemOptimizer) (os : OS) (pid : Z) :
  let '(b1, st1) := calculate_boost st os pid in
  calculate_boost st1 os pid = (b1, st1).
Proof.
  unfold calculate_boost.
  destruct (PyDict.get Z.eqb pid (optimized_processes st)) as [rec|] eqn:G;
    [|rewrite G; reflexivity].
  destruct (proc_of os pid) as [p|] eqn:P; [|rewrite G; reflexivity].
  simpl optimized_processes. rewrite (PyDictFacts.get_set_same _ Zeqb_spec).
  cbn [with_boost with_records r_name r_profile r_timestamp r_optimizations
       r_metrics_before r_boost_percentage platform optimized_processes
       optimization_profiles].
  rewrite (set_set_same _ Zeqb_spec). reflexivity.
Qed.

Lemma strongly_app_l {A} (R : A -> A -> Prop) (l1 l2 : list A) :
  StronglySorted R (l1 ++ l2) -> StronglySorted R l1.
Proof.
  induction l1 as [|a t IH]; simpl; intros Hs; [constructor|].
  inversion Hs as [|? ? Hs' Hall]; subst. constructor; [apply IH, Hs'|].
  rewrite Forall_forall in *. intros x Hx. apply Hall, in_or_app; left; exact Hx.
Qed.

Lemma strongly_impl {A} (R R' : A -> A -> Prop) (l : list A) :
  (forall a b, R a b -> R' a b) -> StronglySorted R l -> StronglySorted R' l.
Proof.
  intros Himp. induction 1 as [|a t Hs IH Hall]; constructor; [exact IH|].
  eapply Forall_impl; [|exact Hall]. intros b; apply Himp.
Qed.

Definition stats_entry (pr : Z * OptRecord) : Z * string * Z :=
  (fst pr, r_name (snd pr), r_boost_percentage (snd pr)).

(** [get_optimization_stats]: the top list holds at most five entries,
    in descending order of boost, and they are the highest boosts: with
    the remaining entries they are exactly the (pid, name, boost) of the
    records, and no remaining entry has a higher boost than a listed one. *)
Theorem X_stats_top_five (st : SystemOptimizer) :
  let top := top_processes (get_optimization_stats st) in
  (List.length top <= 5)%nat /\
  StronglySorted (fun a b => snd b <= snd a) top /\
  exists rest, Permutation (top ++ rest)%list (map stats_entry (optimized_processes st)) /\
    (forall e e', In e top -> In e' rest -> snd e' <= snd e).
Proof.
  cbv zeta. unfold get_optimization_stats. cbn [top_processes].
  set (key := fun x : Z * string * Z => inject_Z (snd x)).
  set (l := sort_desc key (map _ (optimized_processes st))).
  assert (Hs : StronglySorted (SortFacts.desc key) l) by apply SortFacts.sort_desc_strongly.
  assert (Hsplit : (take 5 l ++ skipn 5 l)%list = l) by apply firstn_skipn.
  split; [apply firstn_le_length|]. split; [|exists (skipn 5 l); split].
  - rewrite <- Hsplit in Hs. apply strongly_app_l in Hs.
    eapply strongly_impl; [|exact Hs].
    unfold SortFacts.desc, key. intros a b H. rewrite Zle_Qle. exact H.
  - unfold take. rewrite firstn_skipn. apply SortFacts.sort_desc_perm.
  - intros e e' He He'. rewrite <- Hsplit in Hs.
    pose proof (SortFacts.strongly_app_split key _ _ Hs e e' He He') as H.
    unfold SortFacts.desc, key in H. rewrite Zle_Qle. exact H.
Qed.

End OptimizerExtra.

(* ================================================================== *)
(** * Further properties of game_detector.py *)

Module GameDetectorExtra.
Import GameDetector Fixtures.
Local Open Scope string_scope.

(** the test [detect_games] applies to one process: a known executable,
    a name with an engine indicator, or (for any process) a high GPU load *)
Definition reported (gd : GameDetector) (m : Machine) (p : Snapshot) : bool :=
  PyDict.mem String.eqb (lower (s_name p)) (known_games gd)
  || existsb (fun indicator => contains (lower (s_name p)) indicator) game_indicators
  || m_gpu_load_high m.

Lemma detect_games_pids (gd : GameDetector) (m : Machine) (ps : list Snapshot) :
  map d_pid (fst (detect_games gd m ps)) = map s_pid (filter (reported gd m) ps).
Proof.
  unfold detect_games. revert gd.
  induction ps as [|p rest IH]; intros gd; [reflexivity|].
  cbn [detect_games_aux filter]. unfold reported at 1, PyDict.mem.
  destruct (PyDict.get String.eqb (lower (s_name p)) (known_games gd)) as [[gname gtype]|].
  - specialize (IH (add_gaming gd (s_pid p))).
    destruct (detect_games_aux (add_gaming gd (s_pid p)) m rest) as [r gd'].
    simpl in *. f_equal. exact IH.
  - destruct (existsb (fun indicator => contains (lower (s_name p)) indicator) game_indicators).
    + specialize (IH (add_gaming gd (s_pid p))).
      destruct (detect_games_aux (add_gaming gd (s_pid p)) m rest) as [r gd'].
      simpl in *. f_equal. exact IH.
    + unfold _check_gpu_usage. destruct (m_gpu_load_high m).
      * specialize (IH (add_gaming gd (s_pid p))).
        destruct (detect_games_aux (add_gaming gd (s_pid p)) m rest) as [r gd'].
        simpl in *. f_equal. exact IH.
      * simpl. apply IH.
Qed.

(** [detect_games] reports, in the order of the process list, exactly
    the processes whose lower-cased name is a known game, or contains an
    engine indicator, or every process when the GPU load is high. *)
Theorem X_detect_games_reports (gd : GameDetector) (m : Machine) (ps : list Snapshot) :
  map d_pid (fst (detect_games gd m ps)) = map s_pid (filter (reported gd m) ps).
Proof. apply detect_games_pids. Qed.

Lemma optimize_games_power_plan opt m games :
  m_power_plan (snd (fst (optimize_games opt m games))) = m_power_plan m /\
  snd (optimize_games opt m games) = existsb _apply_game_optimizations games.
Proof.
  revert opt m. induction games as [|g t IH]; intros opt m; [split; reflexivity|].
  cbn [optimize_games existsb].
  destruct (Optimizer.optimize_process opt (m_os m) (d_pid g) (Some "game"))
    as [[res opt'] os'].
  destruct (_apply_game_optimizations g); [split; reflexivity|].
  exact (IH opt' (with_machine_os m os')).
Qed.





(** the games [enable_game_mode] gets to: all of them up to and
    including the first one whose [_apply_game_optimizations] raises *)
Fixpoint upto_raise (games : list Detected) : list Detected :=
  match games with
  | [] => []
  | g :: rest => if _apply_game_optimizations g then [g] else g :: upto_raise rest
  end.

Section GameProfile.
Variable gp : Optimizer.Profile.

Definition has_game_record (opt : Optimizer.SystemOptimizer) (q : Z) : Prop :=
  exists r, PyDict.get Z.eqb q (Optimizer.optimized_processes opt) = Some r /\
            Optimizer.r_profile r = gp.

Lemma select_game_profile (opt : Optimizer.SystemOptimizer) (name : string) :
  PyDict.get String.eqb "game" (Optimizer.optimization_profiles opt) = Some gp ->
  Optimizer.select_profile opt name (Some "game") = gp.
Proof.
  intros H. unfold Optimizer.select_profile, PyDict.mem. rewrite H. reflexivity.
Qed.

Lemma optimize_game_step (opt : Optimizer.SystemOptimizer) (os : OS) (pid : Z) :
  PyDict.get String.eqb "game" (Optimizer.optimization_profiles opt) = Some gp ->
  let '(_, opt', os') := Optimizer.optimize_process opt os pid (Some "game") in
  Optimizer.optimization_profiles opt' = Optimizer.optimization_profiles opt /\
  (forall q, has_game_record opt q -> has_game_record opt' q) /\
  (proc_of os pid <> None -> has_game_record opt' pid) /\
  (forall q, proc_of os q <> None -> proc_of os' q <> None) /\
  (forall q, q <> pid -> PyDict.get Z.eqb q (Optimizer.optimized_processes opt') =
                         PyDict.get Z.eqb q (Optimizer.optimized_processes opt)).
Proof.
  intros Hg. destruct (proc_of os pid) as [p|] eqn:Hp.
  - destruct (OptimizerExtra.optimize_process_live opt os pid (Some "game") p Hp)
      as (res & r & p2 & E & _ & Hr).
    rewrite E. rewrite (select_game_profile opt _ Hg) in Hr. unfold has_game_record. simpl.
    split; [reflexivity|]. split; [|split; [|split]].
    + intros q [r' [Hq Hr']]. destruct (Z.eq_dec q pid) as [->|Hne].
      * exists r. split; [apply (PyDictFacts.get_set_same _ Zeqb_spec) | exact Hr].
      * exists r'. split; [|exact Hr'].
        rewrite (PyDictFacts.get_set_other _ Zeqb_spec) by exact Hne. exact Hq.
    + intros _. exists r. split; [apply (PyDictFacts.get_set_same _ Zeqb_spec) | exact Hr].
    + intros q Hq. unfold proc_of, put_proc. simpl.
      destruct (Z.eq_dec q pid) as [->|Hne].
      * rewrite (PyDictFacts.get_set_same _ Zeqb_spec). discriminate.
      * rewrite (PyDictFacts.get_set_other _ Zeqb_spec) by exact Hne. exact Hq.
    + intros q Hne. apply (PyDictFacts.get_set_other _ Zeqb_spec), Hne.
  - unfold Optimizer.optimize_process. rewrite Hp.
    split; [reflexivity|]. split; [tauto|]. split; [congruence|]. split; [tauto|].
    intros; reflexivity.
Qed.

Lemma optimize_games_records (games : list Detected) :
  forall opt m,
  PyDict.get String.eqb "game" (Optimizer.optimization_profiles opt) = Some gp ->
  let opt' := fst (fst (optimize_games opt m games)) in
  (forall q, has_game_record opt q -> has_game_record opt' q) /\
  (forall g, In g (upto_raise games) -> proc_of (m_os m) (d_pid g) <> None ->
     has_game_record opt' (d_pid g)) /\
  (forall q, ~ In q (map d_pid (upto_raise games)) ->
     PyDict.get Z.eqb q (Optimizer.optimized_processes opt') =
     PyDict.get Z.eqb q (Optimizer.optimized_processes opt)).
Proof.
  induction games as [|g t IH]; intros opt m Hg; cbv zeta; cbn [optimize_games upto_raise].
  { split; [tauto|]. split; [intros g []|]. intros; reflexivity. }
  pose proof (optimize_game_step opt (m_os m) (d_pid g) Hg) as Hs.
  destruct (Optimizer.optimize_process opt (m_os m) (d_pid g) (Some "game"))
    as [[res opt'] os'].
  destruct Hs as (Hprof & Hkeep & Hnew & Hlive & Hother).
  destruct (_apply_game_optimizations g); simpl fst.
  - split; [exact Hkeep|]. split.
    + intros g' [<-|[]] Hl. apply Hnew, Hl.
    + intros q Hq. apply Hother. intros ->. apply Hq. left; reflexivity.
  - rewrite <- Hprof in Hg.
    destruct (IH opt' (with_machine_os m os') Hg) as (IHkeep & IHnew & IHother).
    split; [|split].
    + intros q Hq. apply IHkeep, Hkeep, Hq.
    + intros g' [<-|Hin] Hl.
      * apply IHkeep, Hnew, Hl.
      * apply IHnew; [exact Hin|]. simpl. apply Hlive, Hl.
    + intros q Hq. simpl in Hq. rewrite IHother by tauto. apply Hother. intros ->. tauto.
Qed.

(** Enabling game mode from the inactive state, when the optimizer has a
    "game" profile: every game it gets to (all of them up to the first
    "moba" or "rpg" one, where it raises) whose process is running ends
    up with an optimization record that uses the "game" profile; every
    record that already used it keeps it; the record of any other pid is
    left as it was. *)
Theorem X_game_mode_applies_game_profile (gd : GameDetector)
  (opt : Optimizer.SystemOptimizer) (m : Machine) (games : list Detected)
  (Hoff : game_mode_active gd = false)
  (Hgame : PyDict.get String.eqb "game" (Optimizer.optimization_profiles opt) = Some gp) :
  let '(_, opt', _, _) := enable_game_mode gd opt m games in
  (forall g, In g (upto_raise games) -> proc_of (m_os m) (d_pid g) <> None ->
     has_game_record opt' (d_pid g)) /\
  (forall q, has_game_record opt q -> has_game_record opt' q) /\
  (forall q, ~ In q (map d_pid (upto_raise games)) ->
     PyDict.get Z.eqb q (Optimizer.optimized_processes opt') =
     PyDict.get Z.eqb q (Optimizer.optimized_processes opt)).
Proof.
  unfold enable_game_mode. rewrite Hoff.
  destruct (optimize_games_records games opt m Hgame) as (Hkeep & Hnew & Hother).
  destruct (optimize_games opt m games) as [[opt' m1] raised]. simpl in *.
  destruct raised; (split; [exact Hnew | split; [exact Hkeep | exact Hother]]).
Qed.

End GameProfile.

(** witness of [X_game_mode_applies_game_profile]: CS:GO (pid 7) with
    the default profiles *)
Lemma X_game_mode_applies_game_profile_witness :
  game_mode_active init = false /\
  PyDict.get String.eqb "game" (Optimizer.optimization_profiles linux0) =
    Some (Optimizer.mkProfile "Generic Game" "realtime" "performance_cores" true false "high") /\
  (let '(_, opt', _, _) :=
     enable_game_mode init linux0 machine0 [mkDetected "Counter-Strike: Global Offensive" "fps" 7 "csgo.exe" None] in
   (forall g, In g (upto_raise [mkDetected "Counter-Strike: Global Offensive" "fps" 7 "csgo.exe" None]) ->
      proc_of (m_os machine0) (d_pid g) <> None ->
      has_game_record (Optimizer.mkProfile "Generic Game" "realtime" "performance_cores" true false "high") opt' (d_pid g)) /\
   (forall q, has_game_record (Optimizer.mkProfile "Generic Game" "realtime" "performance_cores" true false "high") linux0 q ->
      has_game_record (Optimizer.mkProfile "Generic Game" "realtime" "performance_cores" true false "high") opt' q) /\
   (forall q, ~ In q (map d_pid (upto_raise [mkDetected "Counter-Strike: Global Offensive" "fps" 7 "csgo.exe" None])) ->
      PyDict.get Z.eqb q (Optimizer.optimized_processes opt') =
      PyDict.get Z.eqb q (Optimizer.optimized_processes linux0))).
Proof.
  split; [reflexivity|]. split; [reflexivity|].
  apply X_game_mode_applies_game_profile; reflexivity.
Defined.

Lemma existsb_filter {A} (f : A -> bool) (l : list A) :
  existsb f l = match filter f l with [] => false | _ => true end.
Proof.
  induction l as [|a t IH]; simpl; [reflexivity|]. destruct (f a); [reflexivity | exact IH].
Qed.

(** a process that [detect_games] reports as a known game of type
    "moba" or "rpg", on which [enable_game_mode] raises *)
Definition crashes (gd : GameDetector) (p : Snapshot) : bool :=
  match PyDict.get String.eqb (lower (s_name p)) (known_games gd) with
  | Some (_, gtype) => String.eqb gtype "moba" || String.eqb gtype "rpg"
  | None => false
  end.

Lemma detect_games_crashes (gd : GameDetector) (m : Machine) (ps : list Snapshot) :
  existsb _apply_game_optimizations (fst (detect_games gd m ps)) = existsb (crashes gd) ps.
Proof.
  unfold detect_games.
  assert (Hk : forall gd', known_games gd' = known_games gd ->
    existsb _apply_game_optimizations (fst (detect_games_aux gd' m ps)) = existsb (crashes gd) ps).
  { induction ps as [|p rest IH]; intros gd' Hk; [reflexivity|].
    cbn [detect_games_aux existsb]. unfold crashes at 1. rewrite <- Hk.
    destruct (PyDict.get String.eqb (lower (s_name p)) (known_games gd')) as [[gname gtype]|].
    - specialize (IH (add_gaming gd' (s_pid p)) Hk).
      destruct (detect_games_aux (add_gaming gd' (s_pid p)) m rest) as [r gd''].
      simpl in *. rewrite IH. reflexivity.
    - destruct (existsb (fun indicator => contains (lower (s_name p)) indicator) game_indicators).
      + specialize (IH (add_gaming gd' (s_pid p)) Hk).
        destruct (detect_games_aux (add_gaming gd' (s_pid p)) m rest) as [r gd''].
        simpl in *. exact IH.
      + destruct (_check_gpu_usage m (s_pid p)).
        * specialize (IH (add_gaming gd' (s_pid p)) Hk).
          destruct (detect_games_aux (add_gaming gd' (s_pid p)) m rest) as [r gd''].
          simpl in *. exact IH.
        * simpl. apply IH, Hk. }
  apply Hk. reflexivity.
Qed.

Lemma detect_games_active (gd : GameDetector) (m : Machine) (ps : list Snapshot) :
  game_mode_active (snd (detect_games gd m ps)) = game_mode_active gd.
Proof.
  unfold detect_games. revert gd.
  induction ps as [|p rest IH]; intros gd; [reflexivity|].
  cbn [detect_games_aux].
  destruct (PyDict.get String.eqb (lower (s_name p)) (known_games gd)) as [[gname gtype]|].
  - specialize (IH (add_gaming gd (s_pid p))).
    destruct (detect_games_aux (add_gaming gd (s_pid p)) m rest). exact IH.
  - destruct (existsb _ game_indicators).
    + specialize (IH (add_gaming gd (s_pid p))).
      destruct (detect_games_aux (add_gaming gd (s_pid p)) m rest). exact IH.
    + destruct (_check_gpu_usage m (s_pid p)); [|apply IH].
      specialize (IH (add_gaming gd (s_pid p))).
      destruct (detect_games_aux (add_gaming gd (s_pid p)) m rest). exact IH.
Qed.

(** The window's periodic [_check_for_games] with automatic game mode
    on: after the check, game mode is active exactly when some process
    the monitor lists is reported by [detect_games] (a known game, an
    engine indicator in its name, or any process under high GPU load),
    and, if game mode was off before, no listed process is a known
    "moba" or "rpg" game (enabling game mode raises on those and leaves
    it off). *)
Theorem X_check_for_games_tracks_detection (gd : GameDetector)
  (opt : Optimizer.SystemOptimizer) (m : Machine) (iter : list Monitor.RawProc) :
  game_mode_active (fst (fst (fst (MainWindow._check_for_games true gd opt m iter)))) =
  existsb (reported gd m) (Monitor.get_processes iter) &&
  (game_mode_active gd || negb (existsb (crashes gd) (Monitor.get_processes iter))).
Proof.
  unfold MainWindow._check_for_games. simpl negb. cbv zeta.
  rewrite existsb_filter.
  pose proof (detect_games_pids gd m (Monitor.get_processes iter)) as Hp.
  pose proof (detect_games_crashes gd m (Monitor.get_processes iter)) as Hc.
  pose proof (detect_games_active gd m (Monitor.get_processes iter)) as Ha0.
  destruct (detect_games gd m (Monitor.get_processes iter)) as [det gd1].
  simpl in Hp, Hc, Ha0. rewrite <- Hc, <- Ha0.
  destruct det as [|d t]; destruct (filter (reported gd m) (Monitor.get_processes iter));
    try discriminate.
  - destruct (game_mode_active gd1) eqn:Ha; [|simpl; rewrite Ha; reflexivity].
    unfold disable_game_mode. rewrite Ha. simpl.
    destruct (remove_games opt m (gaming_processes gd1)). reflexivity.
  - destruct (game_mode_active gd1) eqn:Ha; [simpl; rewrite Ha; reflexivity|].
    unfold enable_game_mode. rewrite Ha. cbn [negb orb andb].
    pose proof (optimize_games_power_plan opt m (d :: t)) as [_ R].
    destruct (optimize_games opt m (d :: t)) as [[opt' m1] raised]. simpl in R.
    change (existsb _apply_game_optimizations (d :: t)) with
      (_apply_game_optimizations d || existsb _apply_game_optimizations t) in *.
    rewrite <- R. destruct raised; simpl; [exact Ha | reflexivity].
Qed.

End GameDetectorExtra.

(* ================================================================== *)
(** * Further properties of scheduler.py *)

Module SchedulerExtra.
Import Scheduler SchedulerOps Fixtures.
Local Open Scope string_scope.

(** a stored, disabled startup schedule *)
Definition boot_info : ScheduleInfo :=
  mkInfo "id1" "boot" "startup" None [] None [clean_memory] false 0 None None None.

Definition st_boot : OptimizationScheduler := mkScheduler [("id1", boot_info)] [] 5.

(** a [schedule] library placing every job one minute ahead *)
Definition minute_ahead : string -> ScheduleInfo -> Z -> Z := fun _ _ t => t + 60.

(** a [schedule] library accepting every [.at] call *)
Definition at_any : string -> string -> bool := fun _ _ => true.

(** [enable_schedule(id, False)]: the schedule stays stored but is
    disabled, nothing is executed, and a later [_run_schedule] for it
    (a job firing that was not cancelled) executes nothing. *)
Theorem X_disabled_schedule_never_runs
  (next_run_of : string -> ScheduleInfo -> Z -> Z) (at_ok : string -> string -> bool)
  (schedule_id : string)
  (st : OptimizationScheduler) :
  match enable_schedule next_run_of at_ok schedule_id false st with
  | Some st1 => executed st1 = executed st /\ _run_schedule schedule_id st1 = st1
  | None => False
  end.
Proof.
  unfold enable_schedule.
  destruct (PyDict.get String.eqb schedule_id (schedules st)) as [si|] eqn:G.
  - destruct (si_job si); unfold _run_schedule, put; simpl;
      rewrite (PyDictFacts.get_set_same _ stringeqb_spec); simpl; split; reflexivity.
  - unfold _run_schedule. rewrite G. split; reflexivity.
Qed.

(** [enable_schedule(id, True)] on a stored startup schedule runs its
    actions right away, once, in order, and stores it enabled with the
    run time as its last run. *)
Theorem X_enable_startup_runs_actions
  (next_run_of : string -> ScheduleInfo -> Z -> Z) (at_ok : string -> string -> bool)
  (schedule_id : string)
  (st : OptimizationScheduler) (si : ScheduleInfo)
  (Hget : PyDict.get String.eqb schedule_id (schedules st) = Some si)
  (Htype : si_type si = "startup") :
  exists st', enable_schedule next_run_of at_ok schedule_id true st = Some st' /\
    executed st' = (executed st ++ si_actions si)%list /\
    option_map (fun s => (si_enabled s, si_last_run s))
               (PyDict.get String.eqb schedule_id (schedules st')) = Some (true, Some (now st)).
Proof.
  unfold enable_schedule. rewrite Hget. unfold _create_job. simpl si_type. rewrite Htype.
  simpl. unfold _run_schedule, put. simpl.
  rewrite (PyDictFacts.get_set_same _ stringeqb_spec). simpl.
  eexists. split; [reflexivity|]. split; [reflexivity|].
  simpl. rewrite (PyDictFacts.get_set_same _ stringeqb_spec). reflexivity.
Qed.

(** witness of [X_enable_startup_runs_actions] on the stored boot schedule *)
Lemma X_enable_startup_runs_actions_witness :
  PyDict.get String.eqb "id1" (schedules st_boot) = Some boot_info /\
  si_type boot_info = "startup" /\
  exists st', enable_schedule minute_ahead at_any "id1" true st_boot = Some st' /\
    executed st' = (executed st_boot ++ si_actions boot_info)%list /\
    option_map (fun s => (si_enabled s, si_last_run s))
               (PyDict.get String.eqb "id1" (schedules st')) = Some (true, Some (now st_boot)).
Proof.
  split; [reflexivity|]. split; [reflexivity|].
  apply X_enable_startup_runs_actions; reflexivity.
Defined.

(** [remove_schedule]: afterwards the id is gone, the other schedules
    are as they were, nothing is executed, and a [_run_schedule] for the
    removed id (a job firing late) does nothing. *)
Theorem X_remove_schedule_spec (schedule_id : string) (st : OptimizationScheduler)
  (Hnd : NoDup (map fst (schedules st))) :
  let st' := remove_schedule schedule_id st in
  PyDict.get String.eqb schedule_id (schedules st') = None /\
  (forall q, q <> schedule_id ->
     PyDict.get String.eqb q (schedules st') = PyDict.get String.eqb q (schedules st)) /\
  NoDup (map fst (schedules st')) /\
  executed st' = executed st /\
  _run_schedule schedule_id st' = st'.
Proof.
  assert (Hnone : PyDict.get String.eqb schedule_id (schedules (remove_schedule schedule_id st)) = None).
  { unfold remove_schedule. destruct (PyDict.get String.eqb schedule_id (schedules st)) eqn:G;
      [apply (PyDictFacts.get_del_same _ stringeqb_spec); exact Hnd | exact G]. }
  cbv zeta. split; [exact Hnone|]. split; [|split; [|split]].
  - intros q Hq. unfold remove_schedule.
    destruct (PyDict.get String.eqb schedule_id (schedules st)); [|reflexivity].
    apply (PyDictFacts.get_del_other _ stringeqb_spec); exact Hq.
  - unfold remove_schedule.
    destruct (PyDict.get String.eqb schedule_id (schedules st)); [|exact Hnd].
    apply nodup_del; exact Hnd.
  - unfold remove_schedule. destruct (PyDict.get String.eqb schedule_id (schedules st)); reflexivity.
  - unfold _run_schedule. rewrite Hnone. reflexivity.
Qed.

(** witness of [X_remove_schedule_spec] on the boot schedule *)
Lemma X_remove_schedule_spec_witness :
  NoDup (map fst (schedules st_boot)) /\
  (let st' := remove_schedule "id1" st_boot in
   PyDict.get String.eqb "id1" (schedules st') = None /\
   (forall q, q <> "id1" ->
      PyDict.get String.eqb q (schedules st') = PyDict.get String.eqb q (schedules st_boot)) /\
   NoDup (map fst (schedules st')) /\
   executed st' = executed st_boot /\
   _run_schedule "id1" st' = st').
Proof.
  split; [repeat constructor; simpl; tauto|].
  apply X_remove_schedule_spec. repeat constructor; simpl; tauto.
Defined.

(** [add_schedule] of a weekly schedule with no days raises when the
    schedule is enabled ([_create_job] leaves [job] unbound), but the
    same schedule added disabled is accepted: it is stored without a job
    and executes nothing. *)
Theorem X_weekly_without_days
  (next_run_of : string -> ScheduleInfo -> Z -> Z) (at_ok : string -> string -> bool)
  (st : OptimizationScheduler)
  (schedule_id name : string) (time_str : option string) (interval : option Z)
  (actions : list Action) :
  add_schedule next_run_of at_ok st schedule_id name "weekly" time_str [] interval actions true = None /\
  match add_schedule next_run_of at_ok st schedule_id name "weekly" time_str [] interval actions false with
  | Some (sid, st') =>
      sid = schedule_id /\ executed st' = executed st /\
      option_map si_job (PyDict.get String.eqb schedule_id (schedules st')) = Some None
  | None => False
  end.
Proof.
  split; [reflexivity|]. simpl. split; [reflexivity|]. split; [reflexivity|].
  rewrite (PyDictFacts.get_set_same _ stringeqb_spec). reflexivity.
Qed.

(** [add_schedule] with [enabled=False], of any type: the schedule is
    stored disabled and without a job, nothing is executed, and a later
    [_run_schedule] for it executes nothing. *)
Theorem X_add_disabled_schedule
  (next_run_of : string -> ScheduleInfo -> Z -> Z) (at_ok : string -> string -> bool)
  (st : OptimizationScheduler)
  (schedule_id name schedule_type : string) (time_str : option string)
  (days : list string) (interval : option Z) (actions : list Action) :
  match add_schedule next_run_of at_ok st schedule_id name schedule_type time_str days interval actions false with
  | Some (sid, st') =>
      sid = schedule_id /\ executed st' = executed st /\
      option_map (fun si => (si_enabled si, si_job si))
                 (PyDict.get String.eqb schedule_id (schedules st')) = Some (false, None) /\
      _run_schedule schedule_id st' = st'
  | None => False
  end.
Proof.
  simpl. split; [reflexivity|]. split; [reflexivity|].
  split; [rewrite (PyDictFacts.get_set_same _ stringeqb_spec); reflexivity|].
  unfold _run_schedule. simpl. rewrite (PyDictFacts.get_set_same _ stringeqb_spec). reflexivity.
Qed.

Lemma get_processes_sorted (iter : list Monitor.RawProc) :
  StronglySorted (SortFacts.desc s_cpu_percent) (Monitor.get_processes iter).
Proof.
  unfold Monitor.get_processes, take.
  pose proof (SortFacts.sort_desc_strongly s_cpu_percent (Monitor.collect iter 0)) as Hs.
  rewrite <- (firstn_skipn 30 (sort_desc s_cpu_percent (Monitor.collect iter 0))) in Hs.
  eapply OptimizerExtra.strongly_app_l; exact Hs.
Qed.

Definition below_10 (p : Snapshot) : bool := negb (Qle_bool 10 (s_cpu_percent p)).

(** [_check_idle_and_run] when both polls of the monitor return the same
    list: the schedule runs exactly when every listed process uses less
    than 10% CPU (the list is sorted by CPU, so its first entry is the
    busiest; an empty list counts as idle). When the second poll comes
    back empty after a non-empty first one, it raises. *)
Theorem X_idle_check_runs_when_all_below_10 (schedule_id : string)
  (iter : list Monitor.RawProc) (st : OptimizationScheduler) :
  _check_idle_and_run schedule_id (Monitor.get_processes iter) (Monitor.get_processes iter) st =
    Some (if forallb below_10 (Monitor.get_processes iter) then _run_schedule schedule_id st else st) /\
  (forall x rest, _check_idle_and_run schedule_id (x :: rest) [] st = None).
Proof.
  split; [|reflexivity].
  pose proof (get_processes_sorted iter) as Hs.
  destruct (Monitor.get_processes iter) as [|h t]; [reflexivity|].
  unfold _check_idle_and_run. cbn [forallb].
  inversion Hs as [|? ? _ Hall]; subst.
  unfold below_10 at 1. destruct (negb (Qle_bool 10 (s_cpu_percent h))) eqn:Hh; simpl; [|reflexivity].
  replace (forallb below_10 t) with true; [reflexivity|].
  symmetry. apply forallb_forall. intros x Hx. rewrite Forall_forall in Hall.
  specialize (Hall x Hx). unfold SortFacts.desc in Hall. unfold below_10.
  apply negb_true_iff in Hh. apply negb_true_iff.
  destruct (Qle_bool 10 (s_cpu_percent x)) eqn:E; [|reflexivity].
  apply Qle_bool_iff in E.
  assert (H10 : (10 <= s_cpu_percent h)%Q) by (eapply Qle_trans; eassumption).
  apply Qle_bool_iff in H10. congruence.
Qed.

(** [get_next_runs] lists the schedules soonest first, and lists exactly
    the stored schedules that are enabled and have a next run, as
    (id, name, next run, type). *)
Theorem X_get_next_runs_spec (st : OptimizationScheduler) :
  StronglySorted (fun a b => snd (fst a) <= snd (fst b)) (get_next_runs st) /\
  (forall sid name t typ,
     In (sid, name, t, typ) (get_next_runs st) <->
     exists si, In (sid, si) (schedules st) /\ si_enabled si = true /\
                si_next_run si = Some t /\ name = si_name si /\ typ = si_type si).
Proof.
  unfold get_next_runs, sort_asc. split.
  - eapply OptimizerExtra.strongly_impl; [|apply SortFacts.sort_desc_strongly].
    unfold SortFacts.desc. intros a b H. rewrite <- Zle_Qle in H. lia.
  - intros sid name t typ. split.
    + intros H. eapply Permutation_in in H; [|apply SortFacts.sort_desc_perm].
      apply in_flat_map in H as [[sid' si] [Hin Hx]].
      destruct (si_enabled si) eqn:He; [|contradiction].
      destruct (si_next_run si) as [t'|] eqn:Hn; [|contradiction].
      destruct Hx as [Hx|[]]. injection Hx as <- <- <- <-.
      exists si. repeat split; assumption.
    + intros [si (Hin & He & Hn & -> & ->)].
      eapply Permutation_in; [symmetry; apply SortFacts.sort_desc_perm|].
      apply in_flat_map. exists (sid, si). split; [exact Hin|].
      rewrite He, Hn. left; reflexivity.
Qed.

Lemma optimize_each_frame (pids : list Z) :
  forall opt os q, ~ In q pids ->
  PyDict.get Z.eqb q (Optimizer.optimized_processes (fst (optimize_each opt os pids))) =
  PyDict.get Z.eqb q (Optimizer.optimized_processes opt).
Proof.
  induction pids as [|pid t IH]; intros opt os q Hq; [reflexivity|].
  simpl. destruct (proc_of os pid) as [p|] eqn:Hp.
  - destruct (OptimizerExtra.optimize_process_live opt os pid None p Hp) as (res & r & p2 & E & _).
    rewrite E. rewrite IH by (simpl in Hq; tauto). simpl.
    apply (PyDictFacts.get_set_other _ Zeqb_spec). simpl in Hq. intros ->; tauto.
  - unfold Optimizer.optimize_process at 1. rewrite Hp. apply IH. simpl in Hq; tauto.
Qed.

(** [_execute_action] only changes the optimization record of a pid that
    the action targets: for "optimize_all", one of the first ten
    processes the monitor lists that uses more than 5% CPU or memory; for
    "optimize_specific", a listed process whose lower-cased name contains
    one of the action's application names, lower-cased. Every other kind
    of action leaves the optimizer's records alone. *)
Theorem X_execute_action_touches_only_targets (opt : Optimizer.SystemOptimizer) (os : OS)
  (iter : list Monitor.RawProc) (action : Action) (q : Z)
  (Hchanged : PyDict.get Z.eqb q (Optimizer.optimized_processes (fst (_execute_action opt os iter action)))
              <> PyDict.get Z.eqb q (Optimizer.optimized_processes opt)) :
  (act_type action = "optimize_all" /\
   exists p, In p (take 10 (Monitor.get_processes iter)) /\ s_pid p = q /\ busy_enough p = true) \/
  (act_type action = "optimize_specific" /\
   exists p, In p (Monitor.get_processes iter) /\ s_pid p = q /\
     existsb (fun app => contains (lower (s_name p)) (lower app)) (act_arg action) = true).
Proof.
  unfold _execute_action in Hchanged.
  destruct (in_dec Z.eq_dec q (action_targets action iter)) as [Hin|Hout];
    [|exfalso; apply Hchanged, optimize_each_frame, Hout].
  unfold action_targets in Hin.
  destruct (String.eqb (act_type action) "optimize_all") eqn:A.
  - left. split; [apply String.eqb_eq, A|].
    apply in_map_iff in Hin as [p [<- Hp]]. apply filter_In in Hp as [Hp Hb].
    exists p. tauto.
  - destruct (String.eqb (act_type action) "optimize_specific") eqn:B; [|contradiction].
    right. split; [apply String.eqb_eq, B|].
    apply in_map_iff in Hin as [p [<- Hp]]. apply filter_In in Hp as [Hp Hb].
    exists p. tauto.
Qed.

(** the monitor listing Chrome (pid 7) at 40% CPU *)
Definition chrome_poll : list Monitor.RawProc := [Monitor.mkRaw 7 "Chrome.exe" 40 12 false].

(** witness of [X_execute_action_touches_only_targets]: an [optimize_all]
    action optimizing Chrome *)
Lemma X_execute_action_touches_only_targets_witness :
  PyDict.get Z.eqb 7 (Optimizer.optimized_processes
                        (fst (_execute_action linux0 os1 chrome_poll (mkAction "optimize_all" []))))
    <> PyDict.get Z.eqb 7 (Optimizer.optimized_processes linux0) /\
  ((act_type (mkAction "optimize_all" []) = "optimize_all" /\
    exists p, In p (take 10 (Monitor.get_processes chrome_poll)) /\ s_pid p = 7 /\ busy_enough p = true) \/
   (act_type (mkAction "optimize_all" []) = "optimize_specific" /\
    exists p, In p (Monitor.get_processes chrome_poll) /\ s_pid p = 7 /\
      existsb (fun app => contains (lower (s_name p)) (lower app)) (act_arg (mkAction "optimize_all" [])) = true)).
Proof.
  assert (H : PyDict.get Z.eqb 7 (Optimizer.optimized_processes
                 (fst (_execute_action linux0 os1 chrome_poll (mkAction "optimize_all" []))))
              <> PyDict.get Z.eqb 7 (Optimizer.optimized_processes linux0))
    by (vm_compute; discriminate).
  split; [exact H|]. apply (X_execute_action_touches_only_targets _ _ _ _ _ H).
Defined.

End SchedulerExtra.
